(** * Astronomy-Explorer: the tool facade of [server.py]

    A shallow embedding of the ten catalogue tools of [src/server.py] and of
    the helpers they share, followed by the properties of the specification.

    Conventions of the embedding.
    - A Python [str] is a [string] holding its UTF-8 encoding.  The quote
      ['] is a single byte that never occurs inside a multi-byte sequence,
      so [str.replace] on code points and on bytes agree for the patterns of
      the program; [str.strip] is modelled on the decoded code points.
    - A Python [int] is a [Z]; a Python [float] is a primitive binary64
      [float], with the operations of IEEE 754 and the exceptions Python
      adds to them.
    - The value handed to [json.dumps] is a [json] tree; the serialised text
      is not modelled.
    - The three library calls [TAPService(..)], [service.search(query)] and
      [results.to_table().to_pandas()] are one question to the remote
      service: a tool is an [action] that either returns at once or submits
      one query and continues with the [response]. *)

From Stdlib Require Import ZArith List String Ascii Bool Lia.
From Stdlib Require Import DecimalString Floats Reals Lra.
From Stdlib Require DecimalZ DecimalPos.
Import ListNotations.

Set Warnings "-inexact-float,-register-all".

(* ================================================================== *)
(** * Python strings *)
(* ================================================================== *)

Module PyStr.

Local Open Scope string_scope.

(** [str(n)] for an [int]. *)
Definition str_int (n : Z) : string := NilZero.string_of_int (Z.to_int n).

(** [s.replace(old, new)] for a non-empty [old]: scan from the left; where
    [old] starts, emit [new] and jump over the [length old] characters of
    the match; elsewhere copy the character.  [skip] counts the characters
    of a match that are still to be jumped over. *)
Fixpoint replace_from (old new : string) (skip : nat) (s : string) : string :=
  match s with
  | EmptyString => EmptyString
  | String c t =>
      match skip with
      | S k => replace_from old new k t
      | O =>
          if prefix old s
          then new ++ replace_from old new (Nat.pred (length old)) t
          else String c (replace_from old new O t)
      end
  end.

(** With an empty [old], Python puts [new] before every character and at
    the end. *)
Fixpoint intercalate (new s : string) : string :=
  match s with
  | EmptyString => new
  | String c t => new ++ String c (intercalate new t)
  end.

Definition replace (old new s : string) : string :=
  match old with
  | EmptyString => intercalate new s
  | _ => replace_from old new O s
  end.

(** [sep.join(parts)]. *)
Fixpoint join (sep : string) (parts : list string) : string :=
  match parts with
  | [] => EmptyString
  | [p] => p
  | p :: rest => p ++ sep ++ join sep rest
  end.

(** ** Code points and [str.strip()] *)

(** UTF-8 decoder, one byte at a time.  [lead b] reads a first byte: a
    complete code point, or the number of continuation bytes to come with
    the high bits read so far.  A byte that fits nowhere is kept as the
    code point [0xDC00 + byte], a truncated sequence as [0xFFFD]; neither
    is white space. *)
Definition lead (b : N) : N + nat * N :=
  if (b <? 0x80)%N then inl b
  else if ((0xC0 <=? b) && (b <? 0xE0))%N then inr (1%nat, (b - 0xC0)%N)
  else if ((0xE0 <=? b) && (b <? 0xF0))%N then inr (2%nat, (b - 0xE0)%N)
  else if ((0xF0 <=? b) && (b <? 0xF8))%N then inr (3%nat, (b - 0xF0)%N)
  else inl (0xDC00 + b)%N.

Definition continuation (b : N) : bool := ((0x80 <=? b) && (b <? 0xC0))%N.

Fixpoint decode_from (pend : nat) (acc : N) (s : string) : list N :=
  match s with
  | EmptyString => match pend with O => [] | S _ => [0xFFFD%N] end
  | String c t =>
      let b := N_of_ascii c in
      let fresh :=
        match lead b with
        | inl cp => cp :: decode_from O 0%N t
        | inr (k, a) => decode_from k a t
        end in
      match pend with
      | O => fresh
      | S k =>
          if continuation b
          then let acc' := (acc * 64 + (b - 0x80))%N in
               match k with
               | O => acc' :: decode_from O 0%N t
               | S _ => decode_from k acc' t
               end
          else 0xFFFD%N :: fresh
      end
  end.

Definition decode (s : string) : list N := decode_from O 0%N s.

(** The code points Python treats as white space ([str.isspace], and the
    characters [str.strip()] removes). *)
Definition isspace (cp : N) : bool :=
  (((0x09 <=? cp) && (cp <=? 0x0D)) || ((0x1C <=? cp) && (cp <=? 0x20))
   || (cp =? 0x85) || (cp =? 0xA0) || (cp =? 0x1680)
   || ((0x2000 <=? cp) && (cp <=? 0x200A))
   || (cp =? 0x2028) || (cp =? 0x2029) || (cp =? 0x202F)
   || (cp =? 0x205F) || (cp =? 0x3000))%N.

Fixpoint lstrip (l : list N) : list N :=
  match l with
  | cp :: t => if isspace cp then lstrip t else l
  | [] => []
  end.

Definition rstrip (l : list N) : list N := List.rev (lstrip (List.rev l)).

(** [s.strip()], as code points. *)
Definition strip (s : string) : list N := rstrip (lstrip (decode s)).

(** Truthiness of a [str]: non-empty. *)
Definition truthy (s : string) : bool :=
  match s with EmptyString => false | _ => true end.

(** [not nombre or not nombre.strip()]. *)
Definition en_blanco (s : string) : bool :=
  negb (truthy s) || match strip s with [] => true | _ => false end.

End PyStr.

(* ================================================================== *)
(** * Exceptions *)
(* ================================================================== *)

(** The exceptions the program can meet.  Each carries what [str(e)] shows:
    the message, or for a [KeyError] the missing key.  The texts of the
    exceptions raised by the interpreter itself are those of CPython 3.12. *)
Inductive pyexc : Type :=
| ValueError (msg : string)
| KeyError (key : string)
| TypeError (msg : string)
| ZeroDivisionError (msg : string).

(** [str(e)]; a [KeyError] shows the [repr] of its key. *)
Definition str_exc (e : pyexc) : string :=
  match e with
  | ValueError msg | TypeError msg | ZeroDivisionError msg => msg
  | KeyError key => ("'" ++ key ++ "'")%string
  end.

(** A computation that returns a value or raises. *)
Inductive outcome (A : Type) : Type :=
| Returns (a : A)
| Raises (e : pyexc).
Arguments Returns {A} a.
Arguments Raises {A} e.

Definition bind {A B : Type} (c : outcome A) (k : A -> outcome B) : outcome B :=
  match c with
  | Returns a => k a
  | Raises e => Raises e
  end.

Declare Scope py_scope.
Delimit Scope py_scope with py.
Notation "x <- c ;; k" := (bind c (fun x => k))
  (at level 61, c at next level, right associativity) : py_scope.

(* ================================================================== *)
(** * Python floats *)
(* ================================================================== *)

Module PyFloat.

Local Open Scope float_scope.

(** [a / b] on floats: Python raises where IEEE 754 gives an infinity or
    a NaN for a zero divisor. *)
Definition truediv (a b : float) : outcome float :=
  if b =? 0 then Raises (ZeroDivisionError "float division by zero")
  else Returns (a / b).

(** [math.sqrt(x)]: the correctly rounded root; a NaN result for an
    argument that is not itself a NaN is a domain error. *)
Definition math_sqrt (x : float) : outcome float :=
  let r := PrimFloat.sqrt x in
  if is_nan r && negb (is_nan x)
  then Raises (ValueError "math domain error")
  else Returns r.

(** [p / 2^k] rounded to the nearest integer, ties to the even one. *)
Definition div_pow2_half_even (p k : Z) : Z :=
  let d := (2 ^ k)%Z in
  let q := (p / d)%Z in
  match (2 * (p mod d) ?= d)%Z with
  | Lt => q
  | Gt => (q + 1)%Z
  | Eq => if Z.even q then q else (q + 1)%Z
  end.

(** [round(x, 2)]: the exact value of [x] is rounded to a multiple [n/100]
    of one hundredth (ties to even) and the result is the float nearest to
    [n/100].  An infinity, a NaN and a zero round to themselves.  A float
    [m * 2^e] with [-6 <= e] is the float nearest to its own rounding: it
    is an integer, or its neighbours are at least [1/64] away.  Below
    that, [n < 2^53] is a float and the correctly rounded quotient
    [n / 100] is the nearest float. *)
Definition round2 (x : float) : float :=
  match Prim2SF x with
  | S754_finite s m e =>
      if (e <? -6)%Z then
        let n := div_pow2_half_even (Z.pos m * 100) (- e) in
        let q := of_uint63 (Uint63.of_Z n) / 100 in
        if s then - q else q
      else x
  | _ => x
  end.

End PyFloat.

(* ================================================================== *)
(** * JSON values, catalogue rows, the remote service *)
(* ================================================================== *)

(** What [json.dumps] is given. *)
Inductive json : Type :=
| JNull
| JInt (n : Z)
| JFloat (x : float)
| JStr (s : string)
| JList (items : list json)
| JDict (fields : list (string * json)).

(** A field of an object. *)
Fixpoint assoc {V : Type} (k : string) (d : list (string * V)) : option V :=
  match d with
  | [] => None
  | (k', v) :: rest => if String.eqb k k' then Some v else assoc k rest
  end.

Definition campo (k : string) (j : json) : option json :=
  match j with
  | JDict fields => assoc k fields
  | _ => None
  end.

(** A value of a row of the data frame, once in a Python [dict]: a float
    (NaN where a numeric column has no value), a string, or [None]. *)
Inductive cell : Type :=
| CNone
| CFloat (x : float)
| CStr (s : string).

(** A row as [df.iloc[0].to_dict()] gives it: column names to values. *)
Definition row : Type := list (string * cell).

(** The data frame: its rows, all over the columns of the first. *)
Definition dataframe : Type := list row.

(** [df.empty]: one of the two axes has length 0, the frame has no row or
    no column. *)
Definition empty (df : dataframe) : bool :=
  match df with
  | [] => true
  | [] :: _ => true
  | (_ :: _) :: _ => false
  end.

(** [df.iloc[0].to_dict()], read once the frame is known not to be empty. *)
Definition iloc0 (df : dataframe) : row := hd [] df.

(** [pd.isna(v)] on a scalar. *)
Definition isna (v : cell) : bool :=
  match v with
  | CNone => true
  | CFloat x => is_nan x
  | CStr _ => false
  end.

(** [data[k]]. *)
Definition getitem (data : row) (k : string) : outcome cell :=
  match assoc k data with
  | Some v => Returns v
  | None => Raises (KeyError k)
  end.

(** [data[k] = v]: the key keeps its place if present, else goes last. *)
Fixpoint setitem (data : row) (k : string) (v : cell) : row :=
  match data with
  | [] => [(k, v)]
  | (k', v') :: rest =>
      if String.eqb k k' then (k, v) :: rest else (k', v') :: setitem rest k v
  end.

Definition json_of_cell (v : cell) : json :=
  match v with
  | CNone => JNull
  | CFloat x => JFloat x
  | CStr s => JStr s
  end.

Definition json_of_dict (data : row) : json :=
  JDict (map (fun kv => (fst kv, json_of_cell (snd kv))) data).

(** What the three library lines
    [service = vo.dal.TAPService(TAP_URL)], [results = service.search(query)],
    [df = results.to_table().to_pandas()] end in: a data frame, a
    [DALServiceError], or another exception; the faults carry [str(e)]. *)
Inductive response : Type :=
| Table (df : dataframe)
| ServiceFault (msg : string)
| OtherFault (msg : string).

(** A tool call: it returns a value without contacting the service, or
    submits one query and maps the response to the value it returns, or
    lets an exception escape. *)
Inductive action : Type :=
| Return (out : json)
| Search (query : string) (k : response -> json)
| Uncaught (e : pyexc).

(** The queries a call submits. *)
Definition queries (a : action) : list string :=
  match a with
  | Search q _ => [q]
  | _ => []
  end.

(** The call against a service [tap]. *)
Definition run (tap : string -> response) (a : action) : outcome json :=
  match a with
  | Return out => Returns out
  | Search q k => Returns (k (tap q))
  | Uncaught e => Raises e
  end.

(* ================================================================== *)
(** * Query texts *)
(* ================================================================== *)

(** The templates of the f-strings, one per tool, with the interpolated
    values as arguments, already formatted. *)

(** The query text of [buscar_datos_exoplaneta]. *)
Definition query_buscar_datos_exoplaneta (nombre_escapado : string) : string :=
  ("
    SELECT 
        pl_name, pl_masse, pl_rade, pl_orbper, pl_orbsmax, pl_eqt,
        discoverymethod, disc_year, disc_refname, disc_pubdate, 
        disc_locale, disc_facility, disc_telescope, disc_instrument,
        sy_dist
    FROM pscomppars 
    WHERE pl_name = '" ++ nombre_escapado ++ "'
    ")%string.

(** The query text of [listar_exoplanetas_mas_masivos]. *)
Definition query_listar_exoplanetas_mas_masivos (numero_planetas : string) : string :=
  ("
    SELECT
        pl_name,
        pl_masse,
        pl_orbper,
        disc_locale,
        disc_year
    FROM (
        SELECT
            pl_name,
            pl_masse,
            pl_orbper,
            disc_locale,
            disc_year
        FROM pscomppars
        WHERE pl_masse IS NOT NULL
        ORDER BY pl_masse DESC
    )
    WHERE ROWNUM <= " ++ numero_planetas ++ "
    ")%string.

(** The query text of [buscar_planetas_habitables]. *)
Definition query_buscar_planetas_habitables (numero_planetas : string) : string :=
  ("
    SELECT
        pl_name,
        pl_masse,
        pl_rade,
        pl_orbper,
        pl_eqt,
        sy_dist,
        disc_year
    FROM (
        SELECT
            pl_name,
            pl_masse,
            pl_rade,
            pl_orbper,
            pl_eqt,
            sy_dist,
            disc_year
        FROM pscomppars
        WHERE pl_masse IS NOT NULL
        AND pl_orbper IS NOT NULL
        AND pl_eqt IS NOT NULL
        AND pl_masse > 0.5
        AND pl_masse < 10.0
        AND pl_orbper > 200.0
        AND pl_orbper < 500.0
        AND pl_eqt > 200
        AND pl_eqt < 320
        ORDER BY ABS(pl_masse - 1.0) ASC
    )
    WHERE ROWNUM <= " ++ numero_planetas ++ "
    ")%string.

(** The query text of [buscar_por_metodo_descubrimiento]. *)
Definition query_buscar_por_metodo_descubrimiento (metodo_escapado : string) (limite : string) : string :=
  ("
    SELECT
        pl_name,
        pl_masse,
        pl_rade,
        pl_orbper,
        discoverymethod,
        disc_year,
        disc_facility,
        disc_locale
    FROM (
        SELECT
            pl_name,
            pl_masse,
            pl_rade,
            pl_orbper,
            discoverymethod,
            disc_year,
            disc_facility,
            disc_locale
        FROM pscomppars
        WHERE discoverymethod = '" ++ metodo_escapado ++ "'
        ORDER BY disc_year DESC
    )
    WHERE ROWNUM <= " ++ limite ++ "
    ")%string.

(** The query text of [timeline_descubrimientos]. *)
Definition query_timeline_descubrimientos (where_clause : string) : string :=
  ("
    SELECT
        disc_year,
        COUNT(*) AS num_descubrimientos,
        COUNT(DISTINCT discoverymethod) AS num_metodos,
        COUNT(DISTINCT disc_facility) AS num_facilities
    FROM pscomppars
    " ++ where_clause ++ "
    GROUP BY disc_year
    ORDER BY disc_year ASC
    ")%string.

(** The query text of [exoplanetas_mas_cercanos]. *)
Definition query_exoplanetas_mas_cercanos (numero_planetas : string) : string :=
  ("
    SELECT
        pl_name,
        sy_dist,
        pl_masse,
        pl_rade,
        pl_orbper,
        pl_eqt,
        disc_year,
        disc_locale
    FROM (
        SELECT
            pl_name,
            sy_dist,
            pl_masse,
            pl_rade,
            pl_orbper,
            pl_eqt,
            disc_year,
            disc_locale
        FROM pscomppars
        WHERE sy_dist IS NOT NULL
        ORDER BY sy_dist ASC
    )
    WHERE ROWNUM <= " ++ numero_planetas ++ "
    ")%string.

(** The query text of [busqueda_avanzada]. *)
Definition query_busqueda_avanzada (where_clause : string) (limite : string) : string :=
  ("
    SELECT
        pl_name,
        pl_masse,
        pl_rade,
        pl_orbper,
        sy_dist,
        pl_eqt,
        discoverymethod,
        disc_year,
        disc_locale,
        disc_facility
    FROM (
        SELECT
            pl_name,
            pl_masse,
            pl_rade,
            pl_orbper,
            sy_dist,
            pl_eqt,
            discoverymethod,
            disc_year,
            disc_locale,
            disc_facility
        FROM pscomppars
        " ++ where_clause ++ "
        ORDER BY disc_year DESC
    )
    WHERE ROWNUM <= " ++ limite ++ "
    ")%string.

(** The query text of [estadisticas_metodos_descubrimiento]. *)
Definition query_estadisticas_metodos_descubrimiento : string :=
  ("
    SELECT
        discoverymethod,
        COUNT(*) AS num_descubrimientos,
        ROUND(COUNT(*) * 100.0 / SUM(COUNT(*)) OVER (), 2) AS porcentaje
    FROM pscomppars
    WHERE discoverymethod IS NOT NULL
    GROUP BY discoverymethod
    ORDER BY num_descubrimientos DESC
    ")%string.

(** The query text of [comparar_con_tierra]. *)
Definition query_comparar_con_tierra (nombre_escapado : string) : string :=
  ("
    SELECT
        pl_name,
        pl_masse,
        pl_rade,
        pl_orbper,
        pl_eqt,
        sy_dist,
        discoverymethod,
        disc_year,
        disc_locale
    FROM pscomppars
    WHERE pl_name = '" ++ nombre_escapado ++ "'
    ")%string.

(** The query text of [calcular_velocidad_escape]. *)
Definition query_calcular_velocidad_escape (nombre_escapado : string) : string :=
  ("
    SELECT
        pl_name,
        pl_masse,
        pl_rade,
        pl_eqt,
        sy_dist
    FROM pscomppars
    WHERE pl_name = '" ++ nombre_escapado ++ "'
    ")%string.

(* ================================================================== *)
(** * Utilities and validation *)
(* ================================================================== *)

Import PyStr PyFloat.
Local Open Scope string_scope.
Local Open Scope py_scope.

Definition validar_numero_positivo (valor : Z) (nombre_parametro : string)
    (maximo : Z) : outcome unit :=
  if (valor <=? 0)%Z then
    Raises (ValueError
      (nombre_parametro ++ " debe ser mayor a 0, recibido: " ++ str_int valor))
  else if (valor >? maximo)%Z then
    Raises (ValueError
      (nombre_parametro ++ " no puede exceder " ++ str_int maximo
         ++ ", recibido: " ++ str_int valor))
  else Returns tt.

Section Server.

(** Two renderings of the libraries that are left open: how a float
    prints inside an f-string ([repr]), and the float that
    [json.loads] reads back from the digits [DataFrame.to_json] prints. *)
Variable repr_float : float -> string.
Variable pandas_double : float -> float.

(** [json.loads(df.to_json(orient="records"))]: one object per row; a
    missing value, a NaN and an infinity become [null]. *)
Definition record_value (v : cell) : json :=
  match v with
  | CNone => JNull
  | CFloat x =>
      if is_nan x || is_infinity x then JNull else JFloat (pandas_double x)
  | CStr s => JStr s
  end.

Definition records (df : dataframe) : list json :=
  map (fun fila : row =>
         JDict (map (fun kv => (fst kv, record_value (snd kv))) fila)) df.

Definition ejecutar_query_segura (query descripcion : string) : action :=
  Search query (fun resp =>
    match resp with
    | Table df =>
        if empty df then
          JDict [("status", JStr "empty");
                 ("message",
                  JStr ("No se encontraron resultados para " ++ descripcion));
                 ("data", JList [])]
        else
          JDict [("status", JStr "success");
                 ("count", JInt (Z.of_nat (List.length df)));
                 ("data", JList (records df))]
    | ServiceFault msg =>
        JDict [("status", JStr "error");
               ("error_type", JStr "service_error");
               ("message", JStr ("Error en el servicio TAP: " ++ msg))]
    | OtherFault msg =>
        JDict [("status", JStr "error");
               ("error_type", JStr "unknown");
               ("message", JStr ("Error inesperado: " ++ msg))]
    end).

(** The handler [except ValueError as e] of the tools that validate a
    number: a [ValueError] becomes an error envelope, anything else
    escapes. *)
Definition tras_validar (v : outcome unit) (sigue : action) : action :=
  match v with
  | Returns _ => sigue
  | Raises (ValueError msg) =>
      Return (JDict [("status", JStr "error");
                     ("message", JStr (str_exc (ValueError msg)))])
  | Raises e => Uncaught e
  end.

(* ---------------------------------------------------------------- *)
(** ** The tools that end in [ejecutar_query_segura] *)

Definition buscar_datos_exoplaneta (nombre : string) : action :=
  if en_blanco nombre then
    Return (JDict [("status", JStr "error");
                   ("message", JStr "El nombre no puede estar vacío")])
  else
    let nombre_escapado := replace "'" "''" nombre in
    let query := query_buscar_datos_exoplaneta nombre_escapado in
    ejecutar_query_segura query ("exoplaneta '" ++ nombre ++ "'").

Definition listar_exoplanetas_mas_masivos (numero_planetas : Z) : action :=
  tras_validar (validar_numero_positivo numero_planetas "numero_planetas" 500)
    (let query := query_listar_exoplanetas_mas_masivos (str_int numero_planetas) in
     ejecutar_query_segura query
       ("top " ++ str_int numero_planetas ++ " exoplanetas más masivos")).

Definition buscar_planetas_habitables (numero_planetas : Z) : action :=
  tras_validar (validar_numero_positivo numero_planetas "numero_planetas" 100)
    (let query := query_buscar_planetas_habitables (str_int numero_planetas) in
     ejecutar_query_segura query "planetas potencialmente habitables").

Definition buscar_por_metodo_descubrimiento (metodo : string) (limite : Z)
    : action :=
  tras_validar (validar_numero_positivo limite "limite" 200)
    (let metodo_escapado := replace "'" "''" metodo in
     let query :=
       query_buscar_por_metodo_descubrimiento metodo_escapado (str_int limite) in
     ejecutar_query_segura query ("exoplanetas descubiertos por " ++ metodo)).

(** An optional filter: under [if x is not None:] ([pasa] always true) or
    under [if x:] ([pasa] the truthiness of a value that is not [None]),
    [condiciones.append(c)] with the value formatted into [c]. *)
Definition filtro {A : Type} (x : option A) (pasa : A -> bool)
    (c : A -> string) (condiciones : list string) : list string :=
  match x with
  | Some a => if pasa a then condiciones ++ [c a] else condiciones
  | None => condiciones
  end.

Definition not_none {A : Type} (a : A) : bool := true.

(** Truthiness of an [int]: non-zero. *)
Definition truthy_int (n : Z) : bool := negb (n =? 0)%Z.

(** ["WHERE " + " AND ".join(condiciones) if condiciones else ""]. *)
Definition where_clause (condiciones : list string) : string :=
  match condiciones with
  | [] => ""
  | _ :: _ => "WHERE " ++ join " AND " condiciones
  end.

Definition condiciones_timeline (año_inicio año_fin : option Z) : list string :=
  let condiciones := [] in
  let condiciones :=
    filtro año_inicio truthy_int
      (fun v => "disc_year >= " ++ str_int v) condiciones in
  let condiciones :=
    filtro año_fin truthy_int
      (fun v => "disc_year <= " ++ str_int v) condiciones in
  condiciones.

Definition timeline_descubrimientos (año_inicio año_fin : option Z) : action :=
  let condiciones := condiciones_timeline año_inicio año_fin in
  let query := query_timeline_descubrimientos (where_clause condiciones) in
  ejecutar_query_segura query "timeline de descubrimientos".

Definition exoplanetas_mas_cercanos (numero_planetas : Z) : action :=
  tras_validar (validar_numero_positivo numero_planetas "numero_planetas" 100)
    (let query := query_exoplanetas_mas_cercanos (str_int numero_planetas) in
     ejecutar_query_segura query
       ("top " ++ str_int numero_planetas ++ " exoplanetas más cercanos")).

Definition condiciones_busqueda
    (masa_min masa_max periodo_min periodo_max distancia_max : option float)
    (año_descubrimiento_min : option Z) (metodo locale : option string)
    : list string :=
  let condiciones := [] in
  let condiciones :=
    filtro masa_min not_none
      (fun v => "pl_masse >= " ++ repr_float v) condiciones in
  let condiciones :=
    filtro masa_max not_none
      (fun v => "pl_masse <= " ++ repr_float v) condiciones in
  let condiciones :=
    filtro periodo_min not_none
      (fun v => "pl_orbper >= " ++ repr_float v) condiciones in
  let condiciones :=
    filtro periodo_max not_none
      (fun v => "pl_orbper <= " ++ repr_float v) condiciones in
  let condiciones :=
    filtro distancia_max not_none
      (fun v => "sy_dist <= " ++ repr_float v) condiciones in
  let condiciones :=
    filtro año_descubrimiento_min not_none
      (fun v => "disc_year >= " ++ str_int v) condiciones in
  let condiciones :=
    filtro metodo truthy
      (fun v => let metodo_escapado := replace "'" "''" v in
                "discoverymethod = '" ++ metodo_escapado ++ "'") condiciones in
  let condiciones :=
    filtro locale truthy
      (fun v => let locale_escapado := replace "'" "''" v in
                "disc_locale = '" ++ locale_escapado ++ "'") condiciones in
  condiciones.

Definition busqueda_avanzada
    (masa_min masa_max periodo_min periodo_max distancia_max : option float)
    (año_descubrimiento_min : option Z) (metodo locale : option string)
    (limite : Z) : action :=
  tras_validar (validar_numero_positivo limite "limite" 200)
    (let condiciones :=
       condiciones_busqueda masa_min masa_max periodo_min periodo_max
         distancia_max año_descubrimiento_min metodo locale in
     let query :=
       query_busqueda_avanzada (where_clause condiciones) (str_int limite) in
     ejecutar_query_segura query "búsqueda avanzada personalizada").

Definition estadisticas_metodos_descubrimiento : action :=
  ejecutar_query_segura query_estadisticas_metodos_descubrimiento
    "estadísticas de métodos de descubrimiento".

End Server.

(* ================================================================== *)
(** * The two tools that derive values from the first row *)
(* ================================================================== *)

(** Arithmetic and comparisons of a value of the row with a float
    constant.  Only a float supports them; a string or [None] is a
    [TypeError]. *)
Definition type_name (v : cell) : string :=
  match v with
  | CNone => "NoneType"
  | CFloat _ => "float"
  | CStr _ => "str"
  end.

Definition cell_truediv (v : cell) (d : float) : outcome float :=
  match v with
  | CFloat x => truediv x d
  | _ => Raises (TypeError ("unsupported operand type(s) for /: '"
                              ++ type_name v ++ "' and 'float'"))
  end.

Definition cell_mul (v : cell) (c : float) : outcome float :=
  match v with
  | CFloat x => Returns (x * c)%float
  | CStr _ => Raises (TypeError "can't multiply sequence by non-int of type 'float'")
  | CNone => Raises (TypeError "unsupported operand type(s) for *: 'NoneType' and 'float'")
  end.

Definition cell_lt (v : cell) (c : float) : outcome bool :=
  match v with
  | CFloat x => Returns (x <? c)%float
  | _ => Raises (TypeError ("'<' not supported between instances of '"
                              ++ type_name v ++ "' and 'float'"))
  end.

Definition cell_le (v : cell) (c : float) : outcome bool :=
  match v with
  | CFloat x => Returns (x <=? c)%float
  | _ => Raises (TypeError ("'<=' not supported between instances of '"
                              ++ type_name v ++ "' and 'float'"))
  end.

(** [v is not None]. *)
Definition is_not_none (v : cell) : bool :=
  match v with
  | CNone => false
  | _ => true
  end.

(** The handler [except Exception as e] of the two tools. *)
Definition error_inesperado (msg : string) : json :=
  JDict [("status", JStr "error");
         ("error_type", JStr "unknown");
         ("message", JStr ("Error inesperado: " ++ msg))].

Definition capturar (c : outcome json) : json :=
  match c with
  | Returns out => out
  | Raises e => error_inesperado (str_exc e)
  end.

(* ------------------------------------------------------------------ *)
(** ** [comparar_con_tierra] *)

Definition PERIODO_TIERRA_DIAS : float := 365.25.

(** The chain [if .. < 0.5 / elif .. <= 2.0 / elif .. <= 10.0 / else] that
    fills the list [interpretacion]. *)
Definition interpretacion_masa (masa : cell) : outcome (list string) :=
  if is_not_none masa && negb (isna masa) then
    ligero <- cell_lt masa 0.5 ;;
    if ligero : bool then
      Returns ["Planeta muy ligero (posiblemente rocoso pequeño)"]
    else
      terrestre <- cell_le masa 2.0 ;;
      if terrestre : bool then
        Returns ["Masa similar a la Tierra (super-Tierra)"]
      else
        neptuno <- cell_le masa 10.0 ;;
        if neptuno : bool then Returns ["Mini-Neptuno"]
        else Returns ["Gigante gaseoso"]
  else Returns [].

(** The body of the [try] after the empty-frame test, on
    [data = df.iloc[0].to_dict()]. *)
Definition comparacion (data : row) : outcome json :=
  orbper <- getitem data "pl_orbper" ;;
  data <- (if is_not_none orbper && negb (isna orbper) then
             cociente <- cell_truediv orbper PERIODO_TIERRA_DIAS ;;
             Returns (setitem data "años_terrestres" (CFloat (round2 cociente)))
           else Returns (setitem data "años_terrestres" CNone)) ;;
  masa <- getitem data "pl_masse" ;;
  interpretacion <- interpretacion_masa masa ;;
  let data :=
    setitem data "interpretacion"
      (match interpretacion with
       | [] => CNone
       | _ :: _ => CStr (join "; " interpretacion)
       end) in
  Returns (JDict [("status", JStr "success");
                  ("count", JInt 1);
                  ("data", JList [json_of_dict data])]).

Definition comparar_con_tierra (nombre_exoplaneta : string) : action :=
  if en_blanco nombre_exoplaneta then
    Return (JDict [("status", JStr "error");
                   ("message", JStr "El nombre no puede estar vacío")])
  else
    let nombre_escapado := replace "'" "''" nombre_exoplaneta in
    let query := query_comparar_con_tierra nombre_escapado in
    Search query (fun resp =>
      match resp with
      | Table df =>
          if empty df then
            JDict [("status", JStr "empty");
                   ("message",
                    JStr ("No se encontró el exoplaneta '" ++ nombre_exoplaneta ++ "'"));
                   ("data", JList [])]
          else capturar (comparacion (iloc0 df))
      | ServiceFault msg | OtherFault msg => error_inesperado msg
      end).

(* ------------------------------------------------------------------ *)
(** ** [calcular_velocidad_escape] *)

Definition G : float := 6.674e-11.
Definition MASA_TIERRA_KG : float := 5.972e24.
Definition RADIO_TIERRA_M : float := 6.371e6.
Definition V_ESCAPE_TIERRA : float := 11.2.

(** The formula [sqrt((2 * G * masa_kg) / radio_m) / 1000] with
    [masa_kg = masa * MASA_TIERRA_KG] and [radio_m = radio * RADIO_TIERRA_M],
    over any arithmetic. *)
Section Formula.

Context {T : Type}.
Variables (mul div : T -> T -> T) (raiz : T -> T).
Variables (dos cG cMasa cRadio mil : T).


End Formula.

(** The formula as the program runs it: binary64, with the exceptions of
    the division and of [math.sqrt]. *)
Definition velocidad_escape_kms (masa_kg radio_m : float) : outcome float :=
  cociente <- truediv (2 * G * masa_kg)%float radio_m ;;
  v_escape_ms <- math_sqrt cociente ;;
  Returns (v_escape_ms / 1000)%float.

(** The five tiers: the note for [interpretacion] and [dificultad_escape]. *)
Definition clasificar_escape (v_escape_kms : float) : string * string :=
  if (v_escape_kms <? 5)%float then
    ("Muy baja - atmósfera ligera o inexistente", "Muy fácil de escapar")
  else if (v_escape_kms <? 11)%float then
    ("Similar a la Tierra - puede retener atmósfera", "Moderadamente difícil")
  else if (v_escape_kms <? 30)%float then
    ("Alta - gravedad superficial significativa", "Difícil de escapar")
  else if (v_escape_kms <? 60)%float then
    ("Muy alta - gigante gaseoso pequeño", "Muy difícil de escapar")
  else
    ("Extremadamente alta - gigante gaseoso masivo",
     "Extremadamente difícil de escapar").

Definition nota_cohete (v_escape_kms : float) : string :=
  if (v_escape_kms <? 20)%float then "Un cohete tipo Saturn V podría escapar"
  else "Requeriría cohetes más potentes que los actuales".

Definition sin_masa_o_radio (nombre_exoplaneta : string) : json :=
  JDict [("status", JStr "error");
         ("message",
          JStr ("El exoplaneta '" ++ nombre_exoplaneta
                  ++ "' no tiene datos de masa o radio necesarios para calcular velocidad de escape"));
         ("data", JList [])].

(** The computation after the guard on missing data. *)
Definition resultado_escape (data : row) : outcome json :=
  masa <- getitem data "pl_masse" ;;
  masa_kg <- cell_mul masa MASA_TIERRA_KG ;;
  radio <- getitem data "pl_rade" ;;
  radio_m <- cell_mul radio RADIO_TIERRA_M ;;
  v_escape_kms <- velocidad_escape_kms masa_kg radio_m ;;
  let ratio_tierra := (v_escape_kms / V_ESCAPE_TIERRA)%float in
  let '(nota, dificultad_escape) := clasificar_escape v_escape_kms in
  let interpretacion := [nota; nota_cohete v_escape_kms] in
  pl_name <- getitem data "pl_name" ;;
  pl_masse <- getitem data "pl_masse" ;;
  pl_rade <- getitem data "pl_rade" ;;
  let resultado :=
    JDict [("pl_name", json_of_cell pl_name);
           ("pl_masse", json_of_cell pl_masse);
           ("pl_rade", json_of_cell pl_rade);
           ("velocidad_escape_kms", JFloat (round2 v_escape_kms));
           ("velocidad_escape_tierra", JFloat V_ESCAPE_TIERRA);
           ("ratio_vs_tierra", JFloat (round2 ratio_tierra));
           ("dificultad_escape", JStr dificultad_escape);
           ("interpretacion", JStr (join "; " interpretacion));
           ("contexto",
            JDict [("luna", JFloat 2.4); ("marte", JFloat 5.0);
                   ("tierra", JFloat 11.2); ("jupiter", JFloat 59.5);
                   ("sol", JFloat 617.5)])] in
  Returns (JDict [("status", JStr "success");
                  ("count", JInt 1);
                  ("data", JList [resultado])]).

(** The body of the [try] after the empty-frame test, on
    [data = df.iloc[0].to_dict()]; [or] looks at the radius only when the
    mass is there. *)
Definition escape (nombre_exoplaneta : string) (data : row) : outcome json :=
  masa <- getitem data "pl_masse" ;;
  falta <- (if isna masa then Returns true
            else radio <- getitem data "pl_rade" ;; Returns (isna radio)) ;;
  if falta : bool then Returns (sin_masa_o_radio nombre_exoplaneta)
  else resultado_escape data.

Definition calcular_velocidad_escape (nombre_exoplaneta : string) : action :=
  if en_blanco nombre_exoplaneta then
    Return (JDict [("status", JStr "error");
                   ("message", JStr "El nombre no puede estar vacío")])
  else
    let nombre_escapado := replace "'" "''" nombre_exoplaneta in
    let query := query_calcular_velocidad_escape nombre_escapado in
    Search query (fun resp =>
      match resp with
      | Table df =>
          if empty df then
            JDict [("status", JStr "empty");
                   ("message",
                    JStr ("No se encontró el exoplaneta '" ++ nombre_exoplaneta ++ "'"));
                   ("data", JList [])]
          else capturar (escape nombre_exoplaneta (iloc0 df))
      | ServiceFault msg | OtherFault msg => error_inesperado msg
      end).

(* ================================================================== *)
(** * Notions used by the statements *)
(* ================================================================== *)

(** [sub] occurs in [s]. *)
Definition contiene (sub s : string) : Prop :=
  exists pre post, s = pre ++ sub ++ post.

(** Unescaping, as the specification words it: each doubled quote is
    replaced by one quote. *)
Definition desescapar (s : string) : string := replace "''" "'" s.

(** Doubling the quotes character by character. *)
Fixpoint doblar_comillas (s : string) : string :=
  match s with
  | EmptyString => EmptyString
  | String c t =>
      if Ascii.eqb c "'" then String "'" (String "'" (doblar_comillas t))
      else String c (doblar_comillas t)
  end.

(** The call submits one query, in which the column [columna] is compared
    with the literal made of [valor] with its quotes doubled. *)
Definition compara_literal (a : action) (columna valor : string) : Prop :=
  exists pre post,
    queries a
    = [pre ++ columna ++ " = '" ++ replace "'" "''" valor ++ "'" ++ post].

(** The call ends at once in an error envelope whose message shows the
    number [v]. *)
Definition rechaza (a : action) (v : Z) : Prop :=
  exists msg,
    a = Return (JDict [("status", JStr "error"); ("message", JStr msg)])
    /\ contiene (str_int v) msg.

(** The call gets past its validation and submits a query. *)
Definition prosigue (a : action) : Prop := exists q k, a = Search q k.

(** A tool validates its number against [maximo]. *)
Definition valida_hasta (maximo : Z) (tool : Z -> action) : Prop :=
  forall v,
    ((v <= 0 \/ v > maximo)%Z -> rechaza (tool v) v)
    /\ ((1 <= v <= maximo)%Z -> prosigue (tool v)).

(** A call that submits a query handles the response as
    [ejecutar_query_segura] does. *)
Definition normaliza (pandas_double : float -> float) (a : action) : Prop :=
  forall q k, a = Search q k ->
    exists descripcion, a = ejecutar_query_segura pandas_double q descripcion.

(** The JSON value that [data] holds for a value of a row: [null] for a
    missing value, a NaN and an infinity, the string itself, and a finite
    number as [to_json] prints it. *)
Inductive valor_en_json (pandas_double : float -> float) : cell -> json -> Prop :=
| json_de_none : valor_en_json pandas_double CNone JNull
| json_de_nan (x : float) :
    is_nan x = true -> valor_en_json pandas_double (CFloat x) JNull
| json_de_infinito (x : float) :
    is_infinity x = true -> valor_en_json pandas_double (CFloat x) JNull
| json_de_numero (x : float) :
    is_nan x = false -> is_infinity x = false ->
    valor_en_json pandas_double (CFloat x) (JFloat (pandas_double x))
| json_de_cadena (s : string) : valor_en_json pandas_double (CStr s) (JStr s).

(** [dato] is the row as a mapping: an object over the columns of the
    row, in their order, each with the JSON value of the row's value. *)
Definition fila_en_json (pandas_double : float -> float)
    (fila : row) (dato : json) : Prop :=
  exists fields,
    dato = JDict fields
    /\ Forall2 (fun (kv : string * cell) (kj : string * json) =>
                  fst kj = fst kv
                  /\ valor_en_json pandas_double (snd kv) (snd kj))
         fila fields.

(** Every number of the frame is finite and printed with all its digits. *)
Definition sin_redondeo (pandas_double : float -> float) (df : dataframe) : Prop :=
  forall fila k x,
    In fila df -> In (k, CFloat x) fila ->
    is_nan x = false /\ is_infinity x = false /\ pandas_double x = x.

(** The text [q] carries the conditions as one conjunction: each of them is
    in it, the first one follows [WHERE ], and each two neighbours are
    joined by [ AND ]. *)
Definition lleva (q : string) (condiciones : list string) : Prop :=
  (forall c, In c condiciones -> contiene c q)
  /\ (forall c resto, condiciones = c :: resto -> contiene ("WHERE " ++ c) q)
  /\ (forall antes c d despues,
        condiciones = (antes ++ c :: d :: despues)%list ->
        contiene (c ++ " AND " ++ d) q).

(** The envelope of a blank name. *)
Definition nombre_vacio : json :=
  JDict [("status", JStr "error");
         ("message", JStr "El nombre no puede estar vacío")].

(** Some condition of the list starts with [pref], the column and the
    operator of a predicate. *)
Definition presente (pref : string) (condiciones : list string) : bool :=
  existsb (prefix pref) condiciones.

(** The four mass bins of the specification, in Earth masses. *)
Definition bin_ligero (m : float) : bool := (m <? 0.5)%float.
Definition bin_terrestre (m : float) : bool := ((0.5 <=? m) && (m <=? 2))%float.
Definition bin_neptuno (m : float) : bool := ((2 <? m) && (m <=? 10))%float.
Definition bin_gigante (m : float) : bool := (10 <? m)%float.

(** The field [interpretacion] of the one datum of an envelope. *)
Definition interpretacion_de (out : json) : option json :=
  match campo "data" out with
  | Some (JList [dato]) => campo "interpretacion" dato
  | _ => None
  end.


(** The response cut down to its first row. *)
Definition solo_primera (resp : response) : response :=
  match resp with
  | Table (fila :: _) => Table [fila]
  | _ => resp
  end.

(** The shape of the success envelope of the two deriving tools. *)
Definition exito_unico (out : json) : Prop :=
  exists dato,
    out = JDict [("status", JStr "success"); ("count", JInt 1);
                 ("data", JList [dato])].



(** A call of one of the ten tools registered with [@mcp.tool()], with its
    arguments; a count or a limit that has a default may be left out. *)
Inductive llamada : Type :=
| LBuscarDatos (nombre : string)
| LListarMasivos (numero_planetas : Z)
| LHabitables (numero_planetas : option Z)
| LPorMetodo (metodo : string) (limite : option Z)
| LTimeline (año_inicio año_fin : option Z)
| LCercanos (numero_planetas : option Z)
| LAvanzada (masa_min masa_max periodo_min periodo_max distancia_max : option float)
    (año_descubrimiento_min : option Z) (metodo locale : option string)
    (limite : option Z)
| LEstadisticas
| LComparar (nombre_exoplaneta : string)
| LVelocidadEscape (nombre_exoplaneta : string).

(** The value of a parameter declared [nombre: int = defecto]. *)
Definition por_defecto (defecto : Z) (x : option Z) : Z :=
  match x with
  | Some v => v
  | None => defecto
  end.

(** The tool a call runs, with the defaults of the signatures:
    [numero_planetas = 10], [limite = 20] for the search by method and
    [limite = 50] for the advanced search. *)
Definition herramienta (repr_float : float -> string)
    (pandas_double : float -> float) (c : llamada) : action :=
  match c with
  | LBuscarDatos nombre => buscar_datos_exoplaneta pandas_double nombre
  | LListarMasivos n => listar_exoplanetas_mas_masivos pandas_double n
  | LHabitables n => buscar_planetas_habitables pandas_double (por_defecto 10 n)
  | LPorMetodo metodo limite =>
      buscar_por_metodo_descubrimiento pandas_double metodo (por_defecto 20 limite)
  | LTimeline año_inicio año_fin =>
      timeline_descubrimientos pandas_double año_inicio año_fin
  | LCercanos n => exoplanetas_mas_cercanos pandas_double (por_defecto 10 n)
  | LAvanzada masa_min masa_max periodo_min periodo_max distancia_max
      año_descubrimiento_min metodo locale limite =>
      busqueda_avanzada repr_float pandas_double masa_min masa_max periodo_min
        periodo_max distancia_max año_descubrimiento_min metodo locale
        (por_defecto 50 limite)
  | LEstadisticas => estadisticas_metodos_descubrimiento pandas_double
  | LComparar nombre => comparar_con_tierra nombre
  | LVelocidadEscape nombre => calcular_velocidad_escape nombre
  end.

(** The two tools that compute on the first row instead of calling
    [ejecutar_query_segura]. *)
Definition deriva (c : llamada) : bool :=
  match c with
  | LComparar _ | LVelocidadEscape _ => true
  | _ => false
  end.

(** The three shapes of an envelope: rows with their count, no row, or an
    error with its message. *)
Definition sobre_valido (out : json) : Prop :=
  (campo "status" out = Some (JStr "success")
   /\ exists items,
        campo "count" out = Some (JInt (Z.of_nat (List.length items)))
        /\ campo "data" out = Some (JList items)
        /\ items <> [])
  \/ (campo "status" out = Some (JStr "empty")
      /\ campo "data" out = Some (JList [])
      /\ exists msg, campo "message" out = Some (JStr msg))
  \/ (campo "status" out = Some (JStr "error")
      /\ campo "count" out = None
      /\ exists msg, campo "message" out = Some (JStr msg)).

(** The envelope of [ejecutar_query_segura] for a [DALServiceError]. *)
Definition error_servicio (msg : string) : json :=
  JDict [("status", JStr "error");
         ("error_type", JStr "service_error");
         ("message", JStr ("Error en el servicio TAP: " ++ msg))].

(** The text between the quotes of a query literal is read to its end: a
    quote in it is always followed by a second quote, the pair standing for
    one quote.  A quote on its own would close the literal. *)
Fixpoint literal_cerrado (s : string) : bool :=
  match s with
  | EmptyString => true
  | String c t =>
      if Ascii.eqb c "'" then
        match t with
        | String c' t' => Ascii.eqb c' "'" && literal_cerrado t'
        | EmptyString => false
        end
      else literal_cerrado t
  end.

(** The number of quotes of a string. *)
Fixpoint comillas (s : string) : nat :=
  match s with
  | EmptyString => O
  | String c t => ((if Ascii.eqb c "'" then 1 else 0) + comillas t)%nat
  end.

(** A filter of [busqueda_avanzada] that is given and passes its test. *)
Definition efectivo {A : Type} (pasa : A -> bool) (x : option A) : bool :=
  match x with
  | Some a => pasa a
  | None => false
  end.

(** A decimal digit, and a string of decimal digits. *)
Definition es_digito (c : ascii) : bool :=
  (48 <=? nat_of_ascii c)%nat && (nat_of_ascii c <=? 57)%nat.

Fixpoint solo_digitos (s : string) : bool :=
  match s with
  | EmptyString => true
  | String c t => es_digito c && solo_digitos t
  end.

(** The value of [años_terrestres] for a period: the period in years to two
    decimals, or [None] when the period is missing. *)
Definition años_de (periodo : cell) : cell :=
  match periodo with
  | CFloat x =>
      if is_nan x then CNone
      else CFloat (round2 (x / PERIODO_TIERRA_DIAS)%float)
  | _ => CNone
  end.

(** The query of the call ends in the row limit [n]: the clause, the
    digits of [n], and the line break and the indentation before the
    closing quotes of the text. *)
Definition limita_a (a : action) (n : Z) : Prop :=
  exists pre,
    queries a = [pre ++ "WHERE ROWNUM <= " ++ str_int n ++ "
    "].

(* ================================================================== *)
(** * Strings: replacement and joining *)
(* ================================================================== *)

Section StringFacts.

Lemma append_assoc (a b c : string) : (a ++ b) ++ c = a ++ (b ++ c).
Proof. induction a as [|x a IH]; simpl; [reflexivity | now rewrite IH]. Qed.

Lemma append_nil_r (a : string) : a ++ "" = a.
Proof. induction a as [|x a IH]; simpl; [reflexivity | now rewrite IH]. Qed.

Lemma prefix_cons (a b : ascii) (s t : string) :
  prefix (String a s) (String b t) = Ascii.eqb a b && prefix s t.
Proof.
  cbn [prefix].
  destruct (ascii_dec a b) as [Heq | Hne], (Ascii.eqb_spec a b) as [Heq' | Hne'];
    solve [reflexivity | contradiction].
Qed.

Lemma prefix_nil (t : string) : prefix "" t = true.
Proof. now destruct t. Qed.

(** One step of the escaping scan. *)
Lemma escapar_cons (c : ascii) (s : string) :
  replace "'" "''" (String c s)
  = if Ascii.eqb c "'" then String "'" (String "'" (replace "'" "''" s))
    else String c (replace "'" "''" s).
Proof.
  unfold replace. cbn [replace_from].
  rewrite prefix_cons, prefix_nil, andb_true_r, Ascii.eqb_sym.
  now destruct (Ascii.eqb c "'").
Qed.

Lemma escapar_doblar (s : string) : replace "'" "''" s = doblar_comillas s.
Proof.
  induction s as [|c s IH]; [reflexivity|].
  rewrite escapar_cons. cbn [doblar_comillas]. now rewrite IH.
Qed.

(** Two steps of the unescaping scan. *)
Lemma desescapar_par (s : string) :
  desescapar (String "'" (String "'" s)) = String "'" (desescapar s).
Proof.
  unfold desescapar, replace. cbn [replace_from].
  rewrite !prefix_cons, prefix_nil. now destruct s.
Qed.

Lemma desescapar_otro (c : ascii) (s : string) :
  c <> "'"%char -> desescapar (String c s) = String c (desescapar s).
Proof.
  intros Hne. unfold desescapar, replace. cbn [replace_from].
  rewrite prefix_cons.
  destruct (Ascii.eqb_spec "'" c) as [Heq | _]; [congruence | reflexivity].
Qed.

Lemma desescapar_escapar (s : string) : desescapar (replace "'" "''" s) = s.
Proof.
  induction s as [|c s IH]; [reflexivity|].
  rewrite escapar_cons.
  destruct (Ascii.eqb_spec c "'") as [-> | Hne].
  - now rewrite desescapar_par, IH.
  - now rewrite desescapar_otro, IH.
Qed.

Lemma contiene_refl (s : string) : contiene s s.
Proof. exists "", "". now rewrite append_nil_r. Qed.

Lemma contiene_append_l (c a s : string) : contiene c s -> contiene c (a ++ s).
Proof.
  intros (pre & post & ->). exists (a ++ pre), post. now rewrite append_assoc.
Qed.

Lemma contiene_append_r (c s b : string) : contiene c s -> contiene c (s ++ b).
Proof.
  intros (pre & post & ->). exists pre, (post ++ b).
  now rewrite !append_assoc.
Qed.

(** Every part occurs in the joined string. *)
Lemma join_contiene (sep c : string) (parts : list string) :
  In c parts -> contiene c (join sep parts).
Proof.
  induction parts as [|p rest IH]; [contradiction|].
  intros [-> | Hin].
  - destruct rest as [|q rest]; [apply contiene_refl|].
    cbn [join]. apply contiene_append_r, contiene_refl.
  - destruct rest as [|q rest]; [contradiction|].
    change (join sep (p :: q :: rest)) with (p ++ sep ++ join sep (q :: rest)).
    now apply contiene_append_l, contiene_append_l, IH.
Qed.

Lemma where_clause_contiene (c : string) (condiciones : list string) :
  In c condiciones -> contiene c (where_clause condiciones).
Proof.
  intros Hin. destruct condiciones as [|p rest]; [contradiction|].
  unfold where_clause. now apply contiene_append_l, join_contiene.
Qed.

(** What an optional filter leaves in the list. *)
Lemma in_filtro {A : Type} (x : option A) (pasa : A -> bool)
    (c : A -> string) (condiciones : list string) (d : string) :
  In d (filtro x pasa c condiciones)
  <-> In d condiciones \/ exists a, x = Some a /\ pasa a = true /\ d = c a.
Proof.
  unfold filtro. destruct x as [a|].
  - destruct (pasa a) eqn:Hp.
    + rewrite in_app_iff. cbn [In]. split.
      * intros [H | [<- | []]]; [now left | right; now exists a].
      * intros [H | (a' & [= <-] & _ & ->)]; [now left | right; now left].
    + split; [now left | intros [H | (a' & [= <-] & Hp' & _)]; [easy | congruence]].
  - split; [now left | intros [H | (a' & [=] & _)]; easy].
Qed.

(** Splitting a query text around an interpolated literal. *)
Lemma literal_split (P Q pre col x post : string) :
  P = pre ++ col ++ " = '" -> Q = "'" ++ post ->
  [P ++ x ++ Q] = [pre ++ col ++ " = '" ++ x ++ "'" ++ post].
Proof. intros -> ->. now rewrite !append_assoc. Qed.

Lemma literal_en_where (A rest wc col x : string) :
  contiene ((col ++ " = '") ++ x ++ "'") wc ->
  exists pre post,
    [A ++ wc ++ rest] = [pre ++ col ++ " = '" ++ x ++ "'" ++ post].
Proof.
  intros (a & b & ->). exists (A ++ a), (b ++ rest).
  now rewrite !append_assoc.
Qed.

Lemma truthy_iff (s : string) : truthy s = true <-> s <> "".
Proof. destruct s; cbn; split; congruence. Qed.

End StringFacts.

(* ================================================================== *)
(** * The validator *)
(* ================================================================== *)

Section Validator.

Variables (valor maximo : Z) (nombre_parametro : string).

Lemma validar_no_positivo :
  (valor <= 0)%Z ->
  validar_numero_positivo valor nombre_parametro maximo
  = Raises (ValueError (nombre_parametro ++ " debe ser mayor a 0, recibido: "
                          ++ str_int valor)).
Proof.
  intros H. unfold validar_numero_positivo.
  now destruct (Z.leb_spec valor 0); [|lia].
Qed.

Lemma validar_excede :
  (0 < valor)%Z -> (valor > maximo)%Z ->
  validar_numero_positivo valor nombre_parametro maximo
  = Raises (ValueError (nombre_parametro ++ " no puede exceder "
                          ++ str_int maximo ++ ", recibido: " ++ str_int valor)).
Proof.
  intros H0 H. unfold validar_numero_positivo.
  destruct (Z.leb_spec valor 0); [lia|].
  rewrite Z.gtb_ltb. now destruct (Z.ltb_spec maximo valor); [|lia].
Qed.

Lemma validar_en_rango :
  (1 <= valor <= maximo)%Z ->
  validar_numero_positivo valor nombre_parametro maximo = Returns tt.
Proof.
  intros H. unfold validar_numero_positivo.
  destruct (Z.leb_spec valor 0); [lia|].
  rewrite Z.gtb_ltb. now destruct (Z.ltb_spec maximo valor); [lia|].
Qed.

End Validator.

(** The text before the comparison [col = '] at the end of [P]. *)
Ltac antes_de P col :=
  let n := eval vm_compute in (String.length P - String.length (col ++ " = '"))%nat in
  eval vm_compute in (substring 0 n P).

Ltac literal_de col :=
  cbn [queries];
  lazymatch goal with
  | |- exists pre post, [(?P ++ ?x ++ ?Q)%string] = _ =>
      let pre := antes_de P col in
      exists pre; eexists; apply (literal_split P Q pre col x); reflexivity
  end.

(* ================================================================== *)
(** * C1: quotes are doubled, and doubling can be undone *)
(* ================================================================== *)

Section Escaping.

Variable repr_float : float -> string.
Variable pandas_double : float -> float.

Lemma literal_buscar_datos (nombre : string) :
  en_blanco nombre = false ->
  compara_literal (buscar_datos_exoplaneta pandas_double nombre) "pl_name" nombre.
Proof.
  intros Hb. unfold compara_literal, buscar_datos_exoplaneta. rewrite Hb.
  unfold ejecutar_query_segura, query_buscar_datos_exoplaneta.
  literal_de "pl_name".
Qed.

Lemma literal_comparar (nombre : string) :
  en_blanco nombre = false ->
  compara_literal (comparar_con_tierra nombre) "pl_name" nombre.
Proof.
  intros Hb. unfold compara_literal, comparar_con_tierra. rewrite Hb.
  unfold query_comparar_con_tierra. literal_de "pl_name".
Qed.

Lemma literal_calcular (nombre : string) :
  en_blanco nombre = false ->
  compara_literal (calcular_velocidad_escape nombre) "pl_name" nombre.
Proof.
  intros Hb. unfold compara_literal, calcular_velocidad_escape. rewrite Hb.
  unfold query_calcular_velocidad_escape. literal_de "pl_name".
Qed.

Lemma literal_por_metodo (metodo : string) (limite : Z) :
  (1 <= limite <= 200)%Z ->
  compara_literal (buscar_por_metodo_descubrimiento pandas_double metodo limite)
    "discoverymethod" metodo.
Proof.
  intros Hl. unfold compara_literal, buscar_por_metodo_descubrimiento.
  rewrite validar_en_rango by exact Hl. cbn [tras_validar].
  unfold ejecutar_query_segura, query_buscar_por_metodo_descubrimiento.
  literal_de "discoverymethod".
Qed.

Section Avanzada.

Variables (masa_min masa_max periodo_min periodo_max distancia_max : option float).
Variables (año_descubrimiento_min : option Z) (metodo locale : option string).
Variable limite : Z.
Hypothesis limite_valido : (1 <= limite <= 200)%Z.

Let condiciones :=
  condiciones_busqueda repr_float masa_min masa_max periodo_min periodo_max
    distancia_max año_descubrimiento_min metodo locale.

Let llamada :=
  busqueda_avanzada repr_float pandas_double masa_min masa_max periodo_min
    periodo_max distancia_max año_descubrimiento_min metodo locale limite.

Lemma condicion_en_query (col x : string) :
  In ((col ++ " = '") ++ replace "'" "''" x ++ "'") condiciones ->
  compara_literal llamada col x.
Proof.
  intros Hin. unfold compara_literal, llamada, busqueda_avanzada.
  rewrite validar_en_rango by exact limite_valido. cbn [tras_validar].
  unfold ejecutar_query_segura, query_busqueda_avanzada. cbn [queries].
  now apply literal_en_where, where_clause_contiene.
Qed.

Lemma literal_avanzada_metodo (m : string) :
  metodo = Some m -> m <> "" -> compara_literal llamada "discoverymethod" m.
Proof.
  intros Hm Hne. apply condicion_en_query.
  unfold condiciones, condiciones_busqueda.
  apply in_filtro; left. apply in_filtro; right.
  exists m. repeat split; [exact Hm | now apply truthy_iff].
Qed.

Lemma literal_avanzada_locale (l : string) :
  locale = Some l -> l <> "" -> compara_literal llamada "disc_locale" l.
Proof.
  intros Hl Hne. apply condicion_en_query.
  unfold condiciones, condiciones_busqueda.
  apply in_filtro; right.
  exists l. repeat split; [exact Hl | now apply truthy_iff].
Qed.

End Avanzada.

End Escaping.

(** C1. Every string that a tool interpolates into a query literal (the
    planet name of [buscar_datos_exoplaneta], [comparar_con_tierra] and
    [calcular_velocidad_escape], the method of
    [buscar_por_metodo_descubrimiento], the method and the locale of
    [busqueda_avanzada]) reaches the query with each quote doubled, and
    replacing each doubled quote by one quote gives the string back, for
    every string. *)
Theorem quotes_doubled_and_restored :
  (forall s, desescapar (replace "'" "''" s) = s)
  /\ (forall s, replace "'" "''" s = doblar_comillas s)
  /\ (forall pd nombre,
        en_blanco nombre = false ->
        compara_literal (buscar_datos_exoplaneta pd nombre) "pl_name" nombre
        /\ compara_literal (comparar_con_tierra nombre) "pl_name" nombre
        /\ compara_literal (calcular_velocidad_escape nombre) "pl_name" nombre)
  /\ (forall pd metodo limite,
        (1 <= limite <= 200)%Z ->
        compara_literal (buscar_por_metodo_descubrimiento pd metodo limite)
          "discoverymethod" metodo)
  /\ (forall rf pd mmin mmax pmin pmax dmax amin metodo locale limite,
        (1 <= limite <= 200)%Z ->
        let llamada :=
          busqueda_avanzada rf pd mmin mmax pmin pmax dmax amin metodo locale
            limite in
        (forall m, metodo = Some m -> m <> "" ->
                   compara_literal llamada "discoverymethod" m)
        /\ (forall l, locale = Some l -> l <> "" ->
                      compara_literal llamada "disc_locale" l)).
Proof.
  split; [exact desescapar_escapar|].
  split; [exact escapar_doblar|].
  split.
  { intros pd nombre Hb. repeat split.
    - now apply literal_buscar_datos.
    - now apply literal_comparar.
    - now apply literal_calcular. }
  split.
  { intros pd metodo limite Hl. now apply literal_por_metodo. }
  intros rf pd mmin mmax pmin pmax dmax amin metodo locale limite Hl llamada.
  split; intros x Hx Hne.
  - now apply literal_avanzada_metodo.
  - now apply literal_avanzada_locale.
Qed.

(** The theorem at the name [O'Neil b], the method [Transit] and the locale
    [L'espace]. *)
Lemma quotes_doubled_and_restored_witness :
  desescapar (replace "'" "''" "O'Neil b") = "O'Neil b"
  /\ compara_literal (buscar_datos_exoplaneta (fun x => x) "O'Neil b")
       "pl_name" "O'Neil b"
  /\ compara_literal
       (buscar_por_metodo_descubrimiento (fun x => x) "Transit" 20)
       "discoverymethod" "Transit"
  /\ compara_literal
       (busqueda_avanzada (fun _ => "") (fun x => x) None None None None None
          None None (Some "L'espace") 50)
       "disc_locale" "L'espace".
Proof.
  destruct quotes_doubled_and_restored as (Hrt & _ & Hnom & Hmet & Hav).
  split; [apply Hrt|].
  split; [apply (Hnom (fun x => x) "O'Neil b"); reflexivity|].
  split; [apply (Hmet (fun x => x) "Transit" 20%Z); lia|].
  refine (proj2 (Hav (fun _ => "") (fun x => x) None None None None None None
                   None (Some "L'espace") 50%Z _) "L'espace" eq_refl _);
    [lia | discriminate].
Defined.

(* ================================================================== *)
(** * C4: numbers out of range are refused, numbers in range pass *)
(* ================================================================== *)

Lemma validar_rechaza (v maximo : Z) (nombre : string) :
  (v <= 0 \/ v > maximo)%Z ->
  exists msg,
    validar_numero_positivo v nombre maximo = Raises (ValueError msg)
    /\ contiene (str_int v) msg.
Proof.
  intros H. destruct (Z.leb_spec v 0) as [Hle | Hgt].
  - eexists. split; [now apply validar_no_positivo|].
    exists (nombre ++ " debe ser mayor a 0, recibido: "), "".
    now rewrite append_nil_r, append_assoc.
  - eexists. split; [apply validar_excede; lia|].
    exists (nombre ++ " no puede exceder " ++ str_int maximo ++ ", recibido: "), "".
    now rewrite append_nil_r, !append_assoc.
Qed.

Lemma tras_validar_valida (maximo : Z) (nombre : string) (sigue : Z -> action) :
  (forall v, prosigue (sigue v)) ->
  valida_hasta maximo
    (fun v => tras_validar (validar_numero_positivo v nombre maximo) (sigue v)).
Proof.
  intros Hs v. cbv beta. split; intros H.
  - destruct (validar_rechaza v maximo nombre H) as (msg & -> & Hc).
    exists msg. now split.
  - rewrite validar_en_rango by exact H. apply Hs.
Qed.

Lemma ejecutar_prosigue (pd : float -> float) (q d : string) :
  prosigue (ejecutar_query_segura pd q d).
Proof. unfold ejecutar_query_segura. now eexists; eexists. Qed.

(** C4. For every integer [v] checked against a maximum ([numero_planetas]
    against 500 or 100, [limite] against 200): if [v <= 0] or [v > max] the
    validator raises and the tool returns an error envelope whose message
    shows [v]; if [1 <= v <= max] the validator raises nothing and the tool
    goes on to its query. *)
Theorem bounded_numbers_validated :
  (forall v maximo nombre,
      ((v <= 0 \/ v > maximo)%Z ->
       exists msg,
         validar_numero_positivo v nombre maximo = Raises (ValueError msg)
         /\ contiene (str_int v) msg)
      /\ ((1 <= v <= maximo)%Z ->
          validar_numero_positivo v nombre maximo = Returns tt))
  /\ (forall pd, valida_hasta 500 (listar_exoplanetas_mas_masivos pd))
  /\ (forall pd, valida_hasta 100 (buscar_planetas_habitables pd))
  /\ (forall pd, valida_hasta 100 (exoplanetas_mas_cercanos pd))
  /\ (forall pd metodo,
        valida_hasta 200 (buscar_por_metodo_descubrimiento pd metodo))
  /\ (forall rf pd mmin mmax pmin pmax dmax amin metodo locale,
        valida_hasta 200
          (busqueda_avanzada rf pd mmin mmax pmin pmax dmax amin metodo locale)).
Proof.
  split.
  { intros v maximo nombre. split.
    - apply validar_rechaza.
    - apply validar_en_rango. }
  split; [intros pd; unfold listar_exoplanetas_mas_masivos|].
  2: split; [intros pd; unfold buscar_planetas_habitables|].
  3: split; [intros pd; unfold exoplanetas_mas_cercanos|].
  4: split; [intros pd metodo; unfold buscar_por_metodo_descubrimiento
            |intros rf pd mmin mmax pmin pmax dmax amin metodo locale;
             unfold busqueda_avanzada].
  all: apply tras_validar_valida; intros v; apply ejecutar_prosigue.
Qed.

(** The theorem at 0, at 501 and at 10 planets, and at a limit of 201. *)
Lemma bounded_numbers_validated_witness :
  rechaza (listar_exoplanetas_mas_masivos (fun x => x) 0) 0
  /\ rechaza (listar_exoplanetas_mas_masivos (fun x => x) 501) 501
  /\ prosigue (listar_exoplanetas_mas_masivos (fun x => x) 10)
  /\ rechaza (buscar_por_metodo_descubrimiento (fun x => x) "Transit" 201) 201.
Proof.
  destruct bounded_numbers_validated as (_ & Hlist & _ & _ & Hmet & _).
  split; [apply (Hlist (fun x => x) 0%Z); lia|].
  split; [apply (Hlist (fun x => x) 501%Z); lia|].
  split; [apply (Hlist (fun x => x) 10%Z); lia|].
  apply (Hmet (fun x => x) "Transit" 201%Z); lia.
Defined.

(* ================================================================== *)
(** * Frames *)
(* ================================================================== *)

Section Frames.

Lemma empty_con_columnas (fila : row) (resto : dataframe) :
  fila <> [] -> empty (fila :: resto) = false.
Proof. destruct fila; [congruence | reflexivity]. Qed.

(** A frame whose first row has a value under some column is not empty. *)
Lemma empty_con_valor (k : string) (fila : row) (v : cell) (resto : dataframe) :
  assoc k fila = Some v -> empty (fila :: resto) = false.
Proof. destruct fila; [discriminate | reflexivity]. Qed.

Lemma empty_primera (fila : row) (resto resto' : dataframe) :
  empty (fila :: resto) = empty (fila :: resto').
Proof. now destruct fila. Qed.

End Frames.

(* ================================================================== *)
(** * C6: one normalisation of every result *)
(* ================================================================== *)

Section Normalisation.

Variable pandas_double : float -> float.

Lemma records_length (df : dataframe) :
  List.length (records pandas_double df) = List.length df.
Proof. unfold records. apply length_map. Qed.

Lemma record_value_en_json (v : cell) :
  valor_en_json pandas_double v (record_value pandas_double v).
Proof.
  destruct v as [|x|s]; unfold record_value; try constructor.
  destruct (is_nan x) eqn:En; cbn [orb].
  - now apply json_de_nan.
  - destruct (is_infinity x) eqn:Ei.
    + now apply json_de_infinito.
    + now apply json_de_numero.
Qed.

(** The datum at each position is the row at that position as a
    mapping. *)
Lemma records_en_json (df : dataframe) :
  Forall2 (fila_en_json pandas_double) df (records pandas_double df).
Proof.
  induction df as [|fila df IH]; cbn; constructor; [|exact IH].
  eexists. split; [reflexivity|].
  induction fila as [|[k v] fila IHf]; cbn; constructor; [|exact IHf].
  split; [reflexivity|]. apply record_value_en_json.
Qed.

Lemma records_sin_redondeo (df : dataframe) :
  sin_redondeo pandas_double df ->
  records pandas_double df = map json_of_dict df.
Proof.
  intros H. unfold records. apply map_ext_in. intros fila Hfila.
  unfold json_of_dict. f_equal. apply map_ext_in. intros [k v] Hkv. cbn.
  f_equal. destruct v as [|x|s]; unfold record_value, json_of_cell;
    try reflexivity.
  destruct (H fila k x Hfila Hkv) as (-> & -> & ->). reflexivity.
Qed.

Lemma tras_validar_normaliza (v : outcome unit) (q d : string) :
  normaliza pandas_double
    (tras_validar v (ejecutar_query_segura pandas_double q d)).
Proof.
  intros q' k H. destruct v as [u | [msg | key | msg | msg]]; cbn in H;
    try discriminate.
  exists d. cbn [tras_validar]. unfold ejecutar_query_segura in *.
  now injection H as <- _.
Qed.

Lemma ejecutar_normaliza (q d : string) :
  normaliza pandas_double (ejecutar_query_segura pandas_double q d).
Proof.
  intros q' k H. exists d. unfold ejecutar_query_segura in *.
  now injection H as <- _.
Qed.

(** A frame without columns is empty, whatever its rows. *)
Lemma ejecutar_sin_columnas (tap : string -> response) (q d : string)
    (resto : list row) :
  tap q = Table ([] :: resto) ->
  run tap (ejecutar_query_segura pandas_double q d)
  = Returns (JDict [("status", JStr "empty");
                    ("message", JStr ("No se encontraron resultados para " ++ d));
                    ("data", JList [])]).
Proof. intros H. cbn. rewrite H. reflexivity. Qed.

End Normalisation.

(** C6. Whatever the query, an empty row set gives the envelope with status
    [empty], a message that holds the description of the call, and an empty
    data list; a row set of [n > 0] rows, over the columns the query
    selects, gives the envelope with status [success], count [n] and, as
    data, the [n] rows as mappings: one object per row, in order, over the
    columns of the row in their order, where a missing value, a NaN and an
    infinity are [null], a string is itself and a finite number is the
    number [to_json] prints; the data are the rows themselves when every
    number is finite and printed with all its digits.  The eight tools
    that do not derive values all handle the response this way. *)
Theorem results_normalised (pd : float -> float) :
  (forall (tap : string -> response) (query descripcion : string) (df : dataframe),
      tap query = Table df ->
      (df = [] ->
       run tap (ejecutar_query_segura pd query descripcion)
       = Returns (JDict [("status", JStr "empty");
                         ("message",
                          JStr ("No se encontraron resultados para " ++ descripcion));
                         ("data", JList [])]))
      /\ (forall fila resto,
            df = fila :: resto -> fila <> [] ->
            exists data,
              run tap (ejecutar_query_segura pd query descripcion)
              = Returns (JDict [("status", JStr "success");
                                ("count", JInt (Z.of_nat (List.length df)));
                                ("data", JList data)])
              /\ List.length data = List.length df
              /\ Forall2 (fila_en_json pd) df data
              /\ (sin_redondeo pd df -> data = map json_of_dict df)))
  /\ (forall rf nombre n metodo limite ainicio afin mmin mmax pmin pmax dmax amin
             met loc,
        normaliza pd (buscar_datos_exoplaneta pd nombre)
        /\ normaliza pd (listar_exoplanetas_mas_masivos pd n)
        /\ normaliza pd (buscar_planetas_habitables pd n)
        /\ normaliza pd (buscar_por_metodo_descubrimiento pd metodo limite)
        /\ normaliza pd (timeline_descubrimientos pd ainicio afin)
        /\ normaliza pd (exoplanetas_mas_cercanos pd n)
        /\ normaliza pd
             (busqueda_avanzada rf pd mmin mmax pmin pmax dmax amin met loc limite)
        /\ normaliza pd (estadisticas_metodos_descubrimiento pd)).
Proof.
  split.
  - intros tap query descripcion df Htap. cbn. rewrite Htap. split.
    + now intros ->.
    + intros fila resto -> Hne. destruct fila as [|c fila]; [congruence|].
      exists (records pd ((c :: fila) :: resto)).
      split; [reflexivity|]. split; [apply records_length|].
      split; [apply records_en_json | apply records_sin_redondeo].
  - intros. repeat split;
      try apply tras_validar_normaliza; try apply ejecutar_normaliza.
    unfold buscar_datos_exoplaneta. destruct (en_blanco nombre).
    + intros q k H. discriminate.
    + apply ejecutar_normaliza.
Qed.

(** The theorem for a service that answers with no row, and with two rows
    of a name and a mass, the second mass missing. *)
Lemma results_normalised_witness :
  run (fun _ => Table []) (ejecutar_query_segura (fun x => x) "q" "consulta")
  = Returns (JDict [("status", JStr "empty");
                    ("message", JStr "No se encontraron resultados para consulta");
                    ("data", JList [])])
  /\ exists data,
       run (fun _ => Table [[("pl_name", CStr "a"); ("pl_masse", CFloat 1.5)];
                            [("pl_name", CStr "b"); ("pl_masse", CFloat nan)]])
         (ejecutar_query_segura (fun x => x) "q" "consulta")
       = Returns (JDict [("status", JStr "success");
                         ("count", JInt 2);
                         ("data", JList data)])
       /\ List.length data = 2%nat
       /\ Forall2 (fila_en_json (fun x => x))
            [[("pl_name", CStr "a"); ("pl_masse", CFloat 1.5)];
             [("pl_name", CStr "b"); ("pl_masse", CFloat nan)]] data.
Proof.
  split.
  - apply (proj1 (proj1 (results_normalised (fun x => x))
                    (fun _ => Table []) "q" "consulta" [] eq_refl)).
    reflexivity.
  - destruct (proj2 (proj1 (results_normalised (fun x => x))
                       (fun _ => Table [[("pl_name", CStr "a"); ("pl_masse", CFloat 1.5)];
                                        [("pl_name", CStr "b"); ("pl_masse", CFloat nan)]])
                       "q" "consulta" _ eq_refl)
                _ _ eq_refl)
      as (data & Hrun & Hlen & Hfilas & _); [discriminate|].
    exists data. repeat split; assumption.
Defined.

(* ================================================================== *)
(** * C8: blank names never reach the service *)
(* ================================================================== *)

Lemma lstrip_espacios (l : list N) : forallb isspace l = true -> lstrip l = [].
Proof.
  induction l as [|cp l IH]; cbn; [reflexivity|].
  destruct (isspace cp); [exact IH | discriminate].
Qed.

Lemma en_blanco_espacios (s : string) :
  forallb isspace (decode s) = true -> en_blanco s = true.
Proof.
  intros H. unfold en_blanco, strip.
  rewrite (lstrip_espacios _ H). cbn. apply orb_true_r.
Qed.

(** C8. A name that is empty or made of white space only makes each of the
    three tools that take a name return the error envelope at once: no
    query is built and the service is not contacted. *)
Theorem blank_name_rejected (pd : float -> float) (nombre : string) :
  forallb isspace (decode nombre) = true ->
  campo "status" nombre_vacio = Some (JStr "error")
  /\ buscar_datos_exoplaneta pd nombre = Return nombre_vacio
  /\ comparar_con_tierra nombre = Return nombre_vacio
  /\ calcular_velocidad_escape nombre = Return nombre_vacio
  /\ queries (buscar_datos_exoplaneta pd nombre) = []
  /\ queries (comparar_con_tierra nombre) = []
  /\ queries (calcular_velocidad_escape nombre) = []
  /\ forall tap,
       run tap (buscar_datos_exoplaneta pd nombre) = Returns nombre_vacio
       /\ run tap (comparar_con_tierra nombre) = Returns nombre_vacio
       /\ run tap (calcular_velocidad_escape nombre) = Returns nombre_vacio.
Proof.
  intros H. apply en_blanco_espacios in H.
  unfold buscar_datos_exoplaneta, comparar_con_tierra, calcular_velocidad_escape.
  rewrite H. repeat split.
Qed.

(** The theorem at a name of two spaces, a tab and a space. *)
Lemma blank_name_rejected_witness :
  calcular_velocidad_escape "  	 " = Return nombre_vacio
  /\ queries (comparar_con_tierra "  	 ") = []
  /\ run (fun _ => Table [[("pl_name", CStr "b")]])
       (buscar_datos_exoplaneta (fun x => x) "  	 ")
     = Returns nombre_vacio.
Proof.
  destruct (blank_name_rejected (fun x => x) "  	 " eq_refl)
    as (_ & _ & _ & Hc & _ & Hq & _ & Hr).
  split; [exact Hc|]. split; [exact Hq|]. apply Hr.
Defined.

(* ================================================================== *)
(** * C3: which optional filters become predicates *)
(* ================================================================== *)

Section Filters.

Lemma presente_app (p : string) (l : list string) (c : string) :
  presente p (l ++ [c]) = presente p l || prefix p c.
Proof. unfold presente. rewrite existsb_app. cbn. now rewrite orb_false_r. Qed.

(** A filter on another column leaves the presence of [p] as it was. *)
Lemma presente_filtro_otro {A : Type} (p : string) (x : option A)
    (pasa : A -> bool) (c : A -> string) (l : list string) :
  (forall a, prefix p (c a) = false) ->
  presente p (filtro x pasa c l) = presente p l.
Proof.
  intros Hc. unfold filtro. destruct x as [a|]; [|reflexivity].
  destruct (pasa a); [|reflexivity].
  now rewrite presente_app, Hc, orb_false_r.
Qed.

(** The filter of [p] itself adds it when the value is there and passes. *)
Lemma presente_filtro_mismo {A : Type} (p : string) (x : option A)
    (pasa : A -> bool) (c : A -> string) (l : list string) :
  (forall a, prefix p (c a) = true) ->
  presente p (filtro x pasa c l)
  = presente p l || match x with Some a => pasa a | None => false end.
Proof.
  intros Hc. unfold filtro. destruct x as [a|]; [|now rewrite orb_false_r].
  destruct (pasa a); [|now rewrite orb_false_r].
  now rewrite presente_app, Hc.
Qed.

End Filters.

Ltac presencia :=
  repeat first
    [ rewrite presente_filtro_otro by (intro; reflexivity)
    | rewrite presente_filtro_mismo by (intro; cbn; apply prefix_nil) ];
  cbn [presente existsb orb].

Section FilterPresence.

Variable repr_float : float -> string.
Variables (masa_min masa_max periodo_min periodo_max distancia_max : option float).
Variables (año_descubrimiento_min : option Z) (metodo locale : option string).
Variables (año_inicio año_fin : option Z).

Let condiciones :=
  condiciones_busqueda repr_float masa_min masa_max periodo_min periodo_max
    distancia_max año_descubrimiento_min metodo locale.

Let condiciones_t := condiciones_timeline año_inicio año_fin.

Lemma no_nulo {A : Type} (x : option A) :
  match x with Some a => not_none a | None => false end = true <-> x <> None.
Proof. unfold not_none. destruct x; split; congruence. Qed.

Lemma no_vacio (x : option string) :
  match x with Some a => truthy a | None => false end = true
  <-> exists s, x = Some s /\ s <> "".
Proof.
  destruct x as [s|]; cbn.
  - rewrite truthy_iff. split.
    + intros H. now exists s.
    + now intros (s' & [= <-] & H).
  - split; [discriminate | now intros (s' & [=] & _)].
Qed.

Lemma presente_masa_min :
  presente "pl_masse >= " condiciones = true <-> masa_min <> None.
Proof. unfold condiciones, condiciones_busqueda. presencia. apply no_nulo. Qed.

Lemma presente_masa_max :
  presente "pl_masse <= " condiciones = true <-> masa_max <> None.
Proof. unfold condiciones, condiciones_busqueda. presencia. apply no_nulo. Qed.

Lemma presente_periodo_min :
  presente "pl_orbper >= " condiciones = true <-> periodo_min <> None.
Proof. unfold condiciones, condiciones_busqueda. presencia. apply no_nulo. Qed.

Lemma presente_periodo_max :
  presente "pl_orbper <= " condiciones = true <-> periodo_max <> None.
Proof. unfold condiciones, condiciones_busqueda. presencia. apply no_nulo. Qed.

Lemma presente_distancia_max :
  presente "sy_dist <= " condiciones = true <-> distancia_max <> None.
Proof. unfold condiciones, condiciones_busqueda. presencia. apply no_nulo. Qed.

Lemma presente_año_min :
  presente "disc_year >= " condiciones = true <-> año_descubrimiento_min <> None.
Proof. unfold condiciones, condiciones_busqueda. presencia. apply no_nulo. Qed.

Lemma presente_metodo :
  presente "discoverymethod = '" condiciones = true
  <-> exists m, metodo = Some m /\ m <> "".
Proof. unfold condiciones, condiciones_busqueda. presencia. apply no_vacio. Qed.

Lemma presente_locale :
  presente "disc_locale = '" condiciones = true
  <-> exists l, locale = Some l /\ l <> "".
Proof. unfold condiciones, condiciones_busqueda. presencia. apply no_vacio. Qed.

Lemma presente_inicio :
  presente "disc_year >= " condiciones_t
  = match año_inicio with Some y => truthy_int y | None => false end.
Proof. unfold condiciones_t, condiciones_timeline. now presencia. Qed.

Lemma presente_fin :
  presente "disc_year <= " condiciones_t
  = match año_fin with Some y => truthy_int y | None => false end.
Proof. unfold condiciones_t, condiciones_timeline. now presencia. Qed.

Lemma truthy_int_iff (y : Z) : truthy_int y = true <-> y <> 0%Z.
Proof.
  unfold truthy_int. destruct (Z.eqb_spec y 0); cbn; split; congruence.
Qed.

End FilterPresence.

(** A condition is in the list: the filter that put it there is found from
    the last one down. *)
Ltac en_filtro :=
  apply in_filtro;
  first
    [ solve [ right; eexists; split; [eassumption|];
              split; [first [reflexivity | now apply truthy_iff
                            | now apply truthy_int_iff] | reflexivity] ]
    | left; en_filtro ].

Section Conjunction.

Lemma join_primera (sep c : string) (resto : list string) :
  exists cola, join sep (c :: resto) = c ++ cola.
Proof.
  destruct resto as [|d resto].
  - exists "". cbn [join]. now rewrite append_nil_r.
  - eexists. reflexivity.
Qed.

(** Two neighbours of the list are joined by the separator. *)
Lemma join_vecinos (sep c d : string) (antes despues : list string) :
  contiene (c ++ sep ++ d) (join sep (antes ++ c :: d :: despues)).
Proof.
  induction antes as [|a antes IH].
  - destruct (join_primera sep d despues) as (cola & E).
    change (join sep ([] ++ c :: d :: despues))
      with (c ++ sep ++ join sep (d :: despues)).
    rewrite E. exists "", cola. cbn [append]. now rewrite !append_assoc.
  - destruct antes as [|b antes].
    + change (join sep ([a] ++ c :: d :: despues))
        with (a ++ sep ++ join sep ([] ++ c :: d :: despues)).
      now apply contiene_append_l, contiene_append_l.
    + change (join sep ((a :: b :: antes) ++ c :: d :: despues))
        with (a ++ sep ++ join sep ((b :: antes) ++ c :: d :: despues)).
      now apply contiene_append_l, contiene_append_l.
Qed.

(** A text with the WHERE clause of the conditions in it carries them. *)
Lemma lleva_where_clause (A B : string) (condiciones : list string) :
  lleva (A ++ where_clause condiciones ++ B) condiciones.
Proof.
  split; [|split].
  - intros c Hin. now apply contiene_append_l, contiene_append_r,
      where_clause_contiene.
  - intros c resto ->. apply contiene_append_l, contiene_append_r.
    unfold where_clause. destruct (join_primera " AND " c resto) as (cola & ->).
    exists "", cola. reflexivity.
  - intros antes c d despues ->. apply contiene_append_l, contiene_append_r.
    destruct antes as [|a antes];
      apply contiene_append_l, join_vecinos.
Qed.

End Conjunction.

(** C3, as the program has it.  In [busqueda_avanzada] each of the six
    numeric filters puts its predicate in the query exactly when its value is
    not null, and the method and the locale exactly when the value is not
    null and not the empty string; in [timeline_descubrimientos] a null year
    puts no predicate and a year that is neither null nor zero puts its
    predicate.  The query that is submitted carries the predicates as one
    conjunction: each predicate is in its text, the first after [WHERE ] and
    each two neighbours joined by [ AND ]; with every filter null the query
    is the text without a WHERE clause in the place of the filters. *)
Theorem optional_filters_become_predicates
    (rf : float -> string) (pd : float -> float)
    (mmin mmax pmin pmax dmax : option float) (amin : option Z)
    (metodo locale : option string) (limite : Z) (ainicio afin : option Z) :
  let cs := condiciones_busqueda rf mmin mmax pmin pmax dmax amin metodo locale in
  let ct := condiciones_timeline ainicio afin in
  ((presente "pl_masse >= " cs = true <-> mmin <> None)
   /\ (presente "pl_masse <= " cs = true <-> mmax <> None)
   /\ (presente "pl_orbper >= " cs = true <-> pmin <> None)
   /\ (presente "pl_orbper <= " cs = true <-> pmax <> None)
   /\ (presente "sy_dist <= " cs = true <-> dmax <> None)
   /\ (presente "disc_year >= " cs = true <-> amin <> None)
   /\ (presente "discoverymethod = '" cs = true
       <-> exists m, metodo = Some m /\ m <> "")
   /\ (presente "disc_locale = '" cs = true
       <-> exists l, locale = Some l /\ l <> ""))
  /\ ((forall v, mmin = Some v -> In ("pl_masse >= " ++ rf v) cs)
      /\ (forall v, mmax = Some v -> In ("pl_masse <= " ++ rf v) cs)
      /\ (forall v, pmin = Some v -> In ("pl_orbper >= " ++ rf v) cs)
      /\ (forall v, pmax = Some v -> In ("pl_orbper <= " ++ rf v) cs)
      /\ (forall v, dmax = Some v -> In ("sy_dist <= " ++ rf v) cs)
      /\ (forall v, amin = Some v -> In ("disc_year >= " ++ str_int v) cs)
      /\ (forall m, metodo = Some m -> m <> "" ->
                    In ("discoverymethod = '" ++ replace "'" "''" m ++ "'") cs)
      /\ (forall l, locale = Some l -> l <> "" ->
                    In ("disc_locale = '" ++ replace "'" "''" l ++ "'") cs))
  /\ ((ainicio = None -> presente "disc_year >= " ct = false)
      /\ (afin = None -> presente "disc_year <= " ct = false)
      /\ (forall y, ainicio = Some y -> y <> 0%Z ->
                    presente "disc_year >= " ct = true
                    /\ In ("disc_year >= " ++ str_int y) ct)
      /\ (forall y, afin = Some y -> y <> 0%Z ->
                    presente "disc_year <= " ct = true
                    /\ In ("disc_year <= " ++ str_int y) ct))
  /\ ((mmin = None -> mmax = None -> pmin = None -> pmax = None ->
       dmax = None -> amin = None -> metodo = None -> locale = None ->
       where_clause cs = "")
      /\ (ainicio = None -> afin = None -> where_clause ct = ""))
  /\ (exists q,
        queries (timeline_descubrimientos pd ainicio afin) = [q]
        /\ lleva q ct
        /\ (forall y, ainicio = Some y -> y <> 0%Z ->
                      contiene ("disc_year >= " ++ str_int y) q)
        /\ (forall y, afin = Some y -> y <> 0%Z ->
                      contiene ("disc_year <= " ++ str_int y) q)
        /\ (ainicio = None -> afin = None ->
            q = query_timeline_descubrimientos ""))
  /\ ((1 <= limite <= 200)%Z ->
      exists q,
        queries (busqueda_avanzada rf pd mmin mmax pmin pmax dmax amin
                   metodo locale limite) = [q]
        /\ lleva q cs
        /\ (forall v, mmin = Some v -> contiene ("pl_masse >= " ++ rf v) q)
        /\ (forall v, mmax = Some v -> contiene ("pl_masse <= " ++ rf v) q)
        /\ (forall v, pmin = Some v -> contiene ("pl_orbper >= " ++ rf v) q)
        /\ (forall v, pmax = Some v -> contiene ("pl_orbper <= " ++ rf v) q)
        /\ (forall v, dmax = Some v -> contiene ("sy_dist <= " ++ rf v) q)
        /\ (forall v, amin = Some v ->
                      contiene ("disc_year >= " ++ str_int v) q)
        /\ (forall m, metodo = Some m -> m <> "" ->
                      contiene ("discoverymethod = '" ++ replace "'" "''" m ++ "'") q)
        /\ (forall l, locale = Some l -> l <> "" ->
                      contiene ("disc_locale = '" ++ replace "'" "''" l ++ "'") q)
        /\ (mmin = None -> mmax = None -> pmin = None -> pmax = None ->
            dmax = None -> amin = None -> metodo = None -> locale = None ->
            q = query_busqueda_avanzada "" (str_int limite))).
Proof.
  intros cs ct.
  assert (Hcs :
    (forall v, mmin = Some v -> In ("pl_masse >= " ++ rf v) cs)
    /\ (forall v, mmax = Some v -> In ("pl_masse <= " ++ rf v) cs)
    /\ (forall v, pmin = Some v -> In ("pl_orbper >= " ++ rf v) cs)
    /\ (forall v, pmax = Some v -> In ("pl_orbper <= " ++ rf v) cs)
    /\ (forall v, dmax = Some v -> In ("sy_dist <= " ++ rf v) cs)
    /\ (forall v, amin = Some v -> In ("disc_year >= " ++ str_int v) cs)
    /\ (forall m, metodo = Some m -> m <> "" ->
                  In ("discoverymethod = '" ++ replace "'" "''" m ++ "'") cs)
    /\ (forall l, locale = Some l -> l <> "" ->
                  In ("disc_locale = '" ++ replace "'" "''" l ++ "'") cs)).
  { unfold cs, condiciones_busqueda. repeat split; intros; en_filtro. }
  assert (Hct :
    (forall y, ainicio = Some y -> y <> 0%Z ->
               In ("disc_year >= " ++ str_int y) ct)
    /\ (forall y, afin = Some y -> y <> 0%Z ->
                  In ("disc_year <= " ++ str_int y) ct)).
  { unfold ct, condiciones_timeline. split; intros y H Hy; en_filtro. }
  split.
  { split; [apply presente_masa_min|]. split; [apply presente_masa_max|].
    split; [apply presente_periodo_min|]. split; [apply presente_periodo_max|].
    split; [apply presente_distancia_max|]. split; [apply presente_año_min|].
    split; [apply presente_metodo | apply presente_locale]. }
  split; [exact Hcs|].
  split.
  { unfold ct at 1 2 3 5. rewrite presente_inicio, presente_fin.
    split; [now intros ->|]. split; [now intros ->|].
    split; intros y E Hy.
    - split; [rewrite E; now apply truthy_int_iff | now apply (proj1 Hct)].
    - split; [rewrite E; now apply truthy_int_iff | now apply (proj2 Hct)]. }
  split.
  { split.
    - now intros -> -> -> -> -> -> -> ->.
    - now intros -> ->. }
  split.
  - exists (query_timeline_descubrimientos (where_clause ct)).
    split; [reflexivity|].
    assert (Hl : lleva (query_timeline_descubrimientos (where_clause ct)) ct)
      by (unfold query_timeline_descubrimientos; apply lleva_where_clause).
    split; [exact Hl|].
    split; [intros y E Hy; now apply (proj1 Hl), (proj1 Hct)|].
    split; [intros y E Hy; now apply (proj1 Hl), (proj2 Hct)|].
    intros E1 E2. unfold ct. now rewrite E1, E2.
  - intros Hlim.
    exists (query_busqueda_avanzada (where_clause cs) (str_int limite)).
    split.
    { unfold busqueda_avanzada. now rewrite validar_en_rango by exact Hlim. }
    assert (Hl : lleva (query_busqueda_avanzada (where_clause cs)
                          (str_int limite)) cs)
      by (unfold query_busqueda_avanzada; apply lleva_where_clause).
    split; [exact Hl|].
    destruct Hcs as (H1 & H2 & H3 & H4 & H5 & H6 & H7 & H8).
    split; [intros v E; now apply (proj1 Hl), H1|].
    split; [intros v E; now apply (proj1 Hl), H2|].
    split; [intros v E; now apply (proj1 Hl), H3|].
    split; [intros v E; now apply (proj1 Hl), H4|].
    split; [intros v E; now apply (proj1 Hl), H5|].
    split; [intros v E; now apply (proj1 Hl), H6|].
    split; [intros v E Hne; now apply (proj1 Hl), H7|].
    split; [intros v E Hne; now apply (proj1 Hl), H8|].
    intros E1 E2 E3 E4 E5 E6 E7 E8. unfold cs.
    now rewrite E1, E2, E3, E4, E5, E6, E7, E8.
Qed.

(** The theorem for a search from mass 1.0 on by the method [Transit], and
    for the time line from 2010 on. *)
Lemma optional_filters_become_predicates_witness :
  In "discoverymethod = 'Transit'"
    (condiciones_busqueda (fun _ => "1.0") (Some 1%float) None None None None
       None (Some "Transit") None)
  /\ presente "disc_year >= " (condiciones_timeline (Some 2010%Z) None) = true
  /\ presente "disc_year <= " (condiciones_timeline (Some 2010%Z) None) = false
  /\ (exists q,
        queries (busqueda_avanzada (fun _ => "1.0") (fun x => x) (Some 1%float)
                   None None None None None (Some "Transit") None 50) = [q]
        /\ contiene "WHERE pl_masse >= 1.0" q
        /\ contiene "pl_masse >= 1.0 AND discoverymethod = 'Transit'" q)
  /\ exists q,
       queries (timeline_descubrimientos (fun x => x) (Some 2010%Z) None) = [q]
       /\ contiene "disc_year >= 2010" q.
Proof.
  destruct (optional_filters_become_predicates (fun _ => "1.0") (fun x => x)
              (Some 1%float) None None None None None (Some "Transit") None 50
              (Some 2010%Z) None)
    as (_ & (_ & _ & _ & _ & _ & _ & Hm & _) & (_ & Hf & Hi & _) & _ & Ht & Hq).
  split; [apply (Hm "Transit" eq_refl); discriminate|].
  split; [apply (Hi 2010%Z eq_refl); discriminate|].
  split; [apply Hf; reflexivity|].
  split.
  - destruct Hq as (q & E & (_ & Hw & Hy) & _); [lia|].
    exists q. split; [exact E|]. split.
    + apply (Hw "pl_masse >= 1.0" ["discoverymethod = 'Transit'"]). reflexivity.
    + apply (Hy [] "pl_masse >= 1.0" "discoverymethod = 'Transit'" []).
      reflexivity.
  - destruct Ht as (q & E & _ & Hy & _).
    exists q. split; [exact E|]. apply (Hy 2010%Z eq_refl). discriminate.
Defined.

(** C3 as stated fails: an empty method is not null and yet adds no
    predicate to the search, and a start year of zero is not null and yet
    adds no predicate to the time line: the query that is submitted is the
    one without a WHERE clause in the place of the filters. *)
Lemma empty_method_and_year_zero_add_nothing :
  (Some "" <> None
   /\ presente "discoverymethod = '"
        (condiciones_busqueda (fun _ => "") None None None None None None
           (Some "") None) = false
   /\ where_clause
        (condiciones_busqueda (fun _ => "") None None None None None None
           (Some "") None) = ""
   /\ queries (busqueda_avanzada (fun _ => "") (fun x => x) None None None
                 None None None (Some "") None 50)
      = [query_busqueda_avanzada "" "50"])
  /\ (Some 0%Z <> None
      /\ presente "disc_year >= " (condiciones_timeline (Some 0%Z) None) = false
      /\ where_clause (condiciones_timeline (Some 0%Z) None) = ""
      /\ queries (timeline_descubrimientos (fun x => x) (Some 0%Z) None)
         = [query_timeline_descubrimientos ""]).
Proof. repeat split; discriminate. Qed.

(* ================================================================== *)
(** * The order of binary64 numbers *)
(* ================================================================== *)

Module FloatOrder.

(** Comparison of specification floats, swapped. *)
Lemma SFcompare_swap (a b : spec_float) :
  SFcompare b a = option_map CompOpp (SFcompare a b).
Proof.
  destruct a as [sa | sa | | sa ma ea], b as [sb | sb | | sb mb eb];
    try destruct sa; try destruct sb; try reflexivity; cbn.
  - rewrite (Z.compare_antisym eb ea).
    destruct (eb ?= ea)%Z; cbn; try reflexivity.
    change (PosDef.Pos.compare_cont Eq ?p ?q) with (Pos.compare p q).
    now rewrite (Pos.compare_antisym ma mb).
  - rewrite (Z.compare_antisym eb ea).
    destruct (eb ?= ea)%Z; cbn; try reflexivity.
    change (PosDef.Pos.compare_cont Eq ?p ?q) with (Pos.compare p q).
    now rewrite (Pos.compare_antisym ma mb).
Qed.

Lemma SFcompare_refl (a : spec_float) :
  a <> S754_nan -> SFcompare a a = Some Eq.
Proof.
  destruct a as [s | s | | s m e]; try destruct s; intros H;
    try reflexivity; try congruence; cbn;
    rewrite Z.compare_refl;
    change (PosDef.Pos.compare_cont Eq ?p ?q) with (Pos.compare p q);
    now rewrite Pos.compare_refl.
Qed.

Lemma is_nan_spec (x : float) : is_nan x = true <-> Prim2SF x = S754_nan.
Proof.
  unfold is_nan. rewrite eqb_spec. unfold SFeqb. split.
  - intros H. destruct (Prim2SF x) eqn:E; try reflexivity;
      rewrite SFcompare_refl in H by discriminate; discriminate.
  - now intros ->.
Qed.

Lemma SFcompare_some (a b : spec_float) :
  a <> S754_nan -> b <> S754_nan -> exists c, SFcompare a b = Some c.
Proof.
  destruct a, b; intros Ha Hb; try congruence; cbn; eauto.
Qed.

(** On numbers, [x < y] is the negation of [y <= x]. *)
Lemma ltb_negb_leb (x y : float) :
  is_nan x = false -> is_nan y = false -> (x <? y)%float = negb (y <=? x)%float.
Proof.
  intros Hx Hy. rewrite ltb_spec, leb_spec. unfold SFltb, SFleb.
  rewrite (SFcompare_swap (Prim2SF x) (Prim2SF y)).
  destruct (SFcompare_some (Prim2SF x) (Prim2SF y)) as (c & ->).
  - intros E. apply is_nan_spec in E. congruence.
  - intros E. apply is_nan_spec in E. congruence.
  - now destruct c.
Qed.

Lemma SFltb_trans (a b c : spec_float) :
  SFltb a b = true -> SFltb b c = true -> SFltb a c = true.
Proof.
  unfold SFltb.
  destruct a as [sa | sa | | sa ma ea], b as [sb | sb | | sb mb eb],
           c as [sc | sc | | sc mc ec];
    try destruct sa; try destruct sb; try destruct sc; cbn;
    try congruence;
    change (PosDef.Pos.compare_cont Eq ?p ?q) with (Pos.compare p q);
    destruct (Z.compare_spec ea eb), (Z.compare_spec eb ec),
             (Z.compare_spec ea ec); try congruence; try lia;
    cbn;
    destruct (Pos.compare_spec ma mb), (Pos.compare_spec mb mc),
             (Pos.compare_spec ma mc); cbn; try congruence; try lia.
Qed.

Lemma ltb_trans (x y z : float) :
  (x <? y)%float = true -> (y <? z)%float = true -> (x <? z)%float = true.
Proof. rewrite !ltb_spec. apply SFltb_trans. Qed.

Lemma ltb_not_nan (x y : float) :
  (x <? y)%float = true -> is_nan x = false /\ is_nan y = false.
Proof.
  rewrite ltb_spec. unfold SFltb. intros H.
  split; apply not_true_is_false; intros E; apply is_nan_spec in E;
    rewrite E in H; [|destruct (Prim2SF x)]; discriminate.
Qed.

Lemma leb_not_nan (x y : float) :
  (x <=? y)%float = true -> is_nan x = false /\ is_nan y = false.
Proof.
  rewrite leb_spec. unfold SFleb. intros H.
  split; apply not_true_is_false; intros E; apply is_nan_spec in E;
    rewrite E in H; [|destruct (Prim2SF x)]; discriminate.
Qed.

End FloatOrder.

(* ================================================================== *)
(** * Dictionaries *)
(* ================================================================== *)

Section Dicts.

Lemma assoc_setitem_same (data : row) (k : string) (v : cell) :
  assoc k (setitem data k v) = Some v.
Proof.
  induction data as [|[k' v'] rest IH]; cbn.
  - now rewrite String.eqb_refl.
  - destruct (String.eqb k k') eqn:E; cbn.
    + now rewrite String.eqb_refl.
    + now rewrite E.
Qed.

Lemma assoc_setitem_other (data : row) (k k' : string) (v : cell) :
  String.eqb k' k = false -> assoc k' (setitem data k v) = assoc k' data.
Proof.
  intros Hne. induction data as [|[k0 v0] rest IH]; cbn.
  - now rewrite Hne.
  - destruct (String.eqb k k0) eqn:E; cbn.
    + apply String.eqb_eq in E. subst k0. now rewrite Hne.
    + now rewrite IH.
Qed.

Lemma campo_json_of_dict (data : row) (k : string) :
  campo k (json_of_dict data) = option_map json_of_cell (assoc k data).
Proof.
  unfold json_of_dict. cbn [campo].
  induction data as [|[k' v'] rest IH]; cbn; [reflexivity|].
  now destruct (String.eqb k k').
Qed.

End Dicts.

(* ================================================================== *)
(** * C5: the mass bins of [comparar_con_tierra] *)
(* ================================================================== *)

Section MassBins.

Import FloatOrder.
Local Open Scope float_scope.

Variable m : float.

(** The three comparisons of the chain decide the comparisons of the
    bins, and are nested. *)
Lemma cadena_masa :
  is_nan m = false ->
  (0.5 <=? m) = negb (m <? 0.5)
  /\ (2 <? m) = negb (m <=? 2)
  /\ (10 <? m) = negb (m <=? 10)
  /\ ((m <? 0.5) = true -> (m <=? 2) = true)
  /\ ((m <=? 2) = true -> (m <=? 10) = true).
Proof.
  intros Hm.
  assert (H1 : (0.5 <=? m) = negb (m <? 0.5)).
  { rewrite (ltb_negb_leb m 0.5) by easy. now rewrite negb_involutive. }
  assert (H2 : (2 <? m) = negb (m <=? 2)) by now apply ltb_negb_leb.
  assert (H3 : (10 <? m) = negb (m <=? 10)) by now apply ltb_negb_leb.
  repeat split; try assumption.
  - intros Hlt. destruct (m <=? 2) eqn:E; [reflexivity|].
    cbn in H2. pose proof (ltb_trans _ _ _ H2 Hlt) as Habs.
    vm_compute in Habs. discriminate.
  - intros Hle. destruct (m <=? 10) eqn:E; [reflexivity|].
    cbn in H3. assert (H : PrimFloat.ltb 2 10 = true) by reflexivity.
    pose proof (ltb_trans 2 10 m H H3) as Habs.
    rewrite H2, Hle in Habs. discriminate.
Qed.

(** What the chain puts in [interpretacion]. *)
Lemma interpretacion_masa_float :
  interpretacion_masa (CFloat m)
  = Returns
      (if is_nan m then []
       else if m <? 0.5 then
         ["Planeta muy ligero (posiblemente rocoso pequeño)"%string]
       else if m <=? 2 then ["Masa similar a la Tierra (super-Tierra)"%string]
       else if m <=? 10 then ["Mini-Neptuno"%string]
       else ["Gigante gaseoso"%string]).
Proof.
  unfold interpretacion_masa. cbn.
  destruct (is_nan m); cbn; [reflexivity|].
  destruct (m <? 0.5); [reflexivity|].
  destruct (m <=? 2); [reflexivity|].
  now destruct (m <=? 10).
Qed.

(** Exactly one bin holds a number, and none holds a NaN. *)
Lemma bins_partition :
  (Nat.b2n (bin_ligero m) + Nat.b2n (bin_terrestre m)
   + Nat.b2n (bin_neptuno m) + Nat.b2n (bin_gigante m))%nat
  = if is_nan m then 0%nat else 1%nat.
Proof.
  unfold bin_ligero, bin_terrestre, bin_neptuno, bin_gigante.
  destruct (is_nan m) eqn:Hm.
  - assert (Hlt : forall y, (m <? y) = false /\ (y <? m) = false
                            /\ (m <=? y) = false /\ (y <=? m) = false).
    { intros y. repeat split; apply not_true_is_false; intros H;
        [apply ltb_not_nan in H | apply ltb_not_nan in H
         | apply leb_not_nan in H | apply leb_not_nan in H];
        destruct H; congruence. }
    destruct (Hlt 0.5) as (-> & _ & _ & ->).
    destruct (Hlt 2) as (_ & -> & _ & _).
    now destruct (Hlt 10) as (_ & -> & _ & _).
  - destruct (cadena_masa Hm) as (-> & -> & -> & H12 & H23).
    destruct (m <? 0.5); [rewrite H12, H23 by (try apply H12; reflexivity);
                          reflexivity|].
    destruct (m <=? 2); [now rewrite H23|].
    now destruct (m <=? 10).
Qed.

(** The label of each bin. *)
Lemma interpretacion_bins :
  (bin_ligero m = true ->
   interpretacion_masa (CFloat m)
   = Returns ["Planeta muy ligero (posiblemente rocoso pequeño)"%string])
  /\ (bin_terrestre m = true ->
      interpretacion_masa (CFloat m)
      = Returns ["Masa similar a la Tierra (super-Tierra)"%string])
  /\ (bin_neptuno m = true ->
      interpretacion_masa (CFloat m) = Returns ["Mini-Neptuno"%string])
  /\ (bin_gigante m = true ->
      interpretacion_masa (CFloat m) = Returns ["Gigante gaseoso"%string])
  /\ (is_nan m = true -> interpretacion_masa (CFloat m) = Returns []).
Proof.
  rewrite interpretacion_masa_float.
  unfold bin_ligero, bin_terrestre, bin_neptuno, bin_gigante.
  repeat split.
  - intros H. destruct (ltb_not_nan _ _ H) as (-> & _). now rewrite H.
  - intros H. apply andb_prop in H. destruct H as (H1 & H2).
    destruct (leb_not_nan _ _ H2) as (Hm & _). rewrite Hm.
    destruct (cadena_masa Hm) as (E1 & _). rewrite E1 in H1.
    apply negb_true_iff in H1. now rewrite H1, H2.
  - intros H. apply andb_prop in H. destruct H as (H2 & H3).
    destruct (leb_not_nan _ _ H3) as (Hm & _). rewrite Hm.
    destruct (cadena_masa Hm) as (_ & E2 & _ & H12 & _). rewrite E2 in H2.
    apply negb_true_iff in H2. rewrite H2, H3.
    destruct (m <? 0.5); [now rewrite H12 in H2 | reflexivity].
  - intros H3. destruct (ltb_not_nan _ _ H3) as (_ & Hm). rewrite Hm.
    destruct (cadena_masa Hm) as (_ & _ & E3 & H12 & H23). rewrite E3 in H3.
    apply negb_true_iff in H3. rewrite H3.
    destruct (m <=? 2); [now rewrite H23 in H3|].
    destruct (m <? 0.5); [now discriminate H12 | reflexivity].
  - now intros ->.
Qed.

End MassBins.

Section Comparison.

Local Open Scope float_scope.

Lemma truediv_periodo (x : float) :
  truediv x PERIODO_TIERRA_DIAS = Returns (x / PERIODO_TIERRA_DIAS).
Proof. reflexivity. Qed.

Variables (fila : row) (periodo masa : cell).
Hypothesis Hperiodo : assoc "pl_orbper" fila = Some periodo.
Hypothesis periodo_numero : forall s, periodo <> CStr s.
Hypothesis Hmasa : assoc "pl_masse" fila = Some masa.

(** With the period null or a number, the comparison succeeds with the
    row extended by the two derived fields. *)
Lemma comparacion_exito (notas : list string) :
  interpretacion_masa masa = Returns notas ->
  exists años,
    comparacion fila
    = Returns
        (JDict [("status", JStr "success");
                ("count", JInt 1);
                ("data",
                 JList [json_of_dict
                          (setitem (setitem fila "años_terrestres" años)
                             "interpretacion"
                             (match notas with
                              | [] => CNone
                              | _ :: _ => CStr (join "; " notas)
                              end))])]).
Proof.
  intros Hnotas. unfold comparacion, getitem. rewrite Hperiodo. cbn [bind].
  destruct periodo as [| x | s]; [| |now elim (periodo_numero s)].
  - exists CNone. cbn [is_not_none andb bind].
    rewrite assoc_setitem_other by reflexivity.
    rewrite Hmasa. cbn [bind]. now rewrite Hnotas.
  - exists (if is_nan x then CNone
            else CFloat (round2 (x / PERIODO_TIERRA_DIAS))).
    cbn [is_not_none isna andb cell_truediv]. rewrite truediv_periodo.
    destruct (is_nan x); cbn [negb bind];
      rewrite assoc_setitem_other by reflexivity;
      rewrite Hmasa; cbn [bind]; now rewrite Hnotas.
Qed.

Lemma interpretacion_de_exito (años nota : cell) :
  interpretacion_de
    (JDict [("status", JStr "success");
            ("count", JInt 1);
            ("data",
             JList [json_of_dict
                      (setitem (setitem fila "años_terrestres" años)
                         "interpretacion" nota)])])
  = Some (json_of_cell nota).
Proof.
  unfold interpretacion_de. cbn [campo assoc String.eqb Ascii.eqb Bool.eqb].
  change (campo "interpretacion"
            (json_of_dict
               (setitem (setitem fila "años_terrestres" años) "interpretacion"
                  nota)) = Some (json_of_cell nota)).
  now rewrite campo_json_of_dict, assoc_setitem_same.
Qed.

End Comparison.

(** C5. The four mass bins of [comparar_con_tierra] leave no number out and
    do not overlap: a mass below 0.5 is labelled very light, from 0.5 to 2.0
    Earth-like, above 2.0 and up to 10.0 mini-Neptune, above 10.0 gas giant
    (so 0.5 is Earth-like, 10.0 is mini-Neptune and 10.01 is gas giant); and
    for a null or NaN mass the field [interpretacion] is there and null. *)
Theorem mass_bins_classified :
  (forall m : float,
      (Nat.b2n (bin_ligero m) + Nat.b2n (bin_terrestre m)
       + Nat.b2n (bin_neptuno m) + Nat.b2n (bin_gigante m))%nat
      = if is_nan m then 0%nat else 1%nat)
  /\ (bin_terrestre 0.5 = true /\ bin_neptuno 10 = true
      /\ bin_gigante 10.01 = true)
  /\ (forall (tap : string -> response) (nombre : string) (fila : row)
             (resto : dataframe) (periodo masa : cell),
        en_blanco nombre = false ->
        tap (query_comparar_con_tierra (replace "'" "''" nombre))
        = Table (fila :: resto) ->
        assoc "pl_orbper" fila = Some periodo ->
        (forall s, periodo <> CStr s) ->
        assoc "pl_masse" fila = Some masa ->
        (forall s, masa <> CStr s) ->
        exists out,
          run tap (comparar_con_tierra nombre) = Returns out
          /\ campo "status" out = Some (JStr "success")
          /\ match masa with
             | CFloat m =>
                 (bin_ligero m = true ->
                  interpretacion_de out
                  = Some (JStr "Planeta muy ligero (posiblemente rocoso pequeño)"))
                 /\ (bin_terrestre m = true ->
                     interpretacion_de out
                     = Some (JStr "Masa similar a la Tierra (super-Tierra)"))
                 /\ (bin_neptuno m = true ->
                     interpretacion_de out = Some (JStr "Mini-Neptuno"))
                 /\ (bin_gigante m = true ->
                     interpretacion_de out = Some (JStr "Gigante gaseoso"))
                 /\ (is_nan m = true -> interpretacion_de out = Some JNull)
             | _ => interpretacion_de out = Some JNull
             end).
Proof.
  split; [exact bins_partition|].
  split; [now vm_compute|].
  intros tap nombre fila resto periodo masa Hb Htap Hp Hpn Hm Hmn.
  assert (Hrun : forall notas,
             interpretacion_masa masa = Returns notas ->
             exists años,
               run tap (comparar_con_tierra nombre)
               = Returns
                   (JDict [("status", JStr "success");
                           ("count", JInt 1);
                           ("data",
                            JList [json_of_dict
                                     (setitem (setitem fila "años_terrestres" años)
                                        "interpretacion"
                                        (match notas with
                                         | [] => CNone
                                         | _ :: _ => CStr (join "; " notas)
                                         end))])])).
  { intros notas Hn.
    destruct (comparacion_exito fila periodo masa Hp Hpn Hm notas Hn)
      as (años & Hc).
    exists años. unfold comparar_con_tierra. rewrite Hb. cbn [run].
    rewrite Htap, (empty_con_valor _ _ _ _ Hp). cbn [iloc0 hd].
    rewrite Hc. reflexivity. }
  destruct masa as [| m | s]; [| |now elim (Hmn s)].
  - destruct (Hrun [] eq_refl) as (años & ->).
    eexists. split; [reflexivity|]. split; [reflexivity|].
    apply interpretacion_de_exito.
  - destruct (interpretacion_bins m) as (H1 & H2 & H3 & H4 & H5).
    destruct (interpretacion_masa (CFloat m)) as [notas|e] eqn:E.
    + destruct (Hrun notas eq_refl) as (años & ->).
      eexists. split; [reflexivity|]. split; [reflexivity|].
      rewrite interpretacion_de_exito.
      repeat split; intros H;
        [apply H1 in H | apply H2 in H | apply H3 in H | apply H4 in H
         | apply H5 in H];
        injection H as ->; reflexivity.
    + rewrite interpretacion_masa_float in E. discriminate.
Qed.

(** The theorem for a row of mass 0.5 and period 730.5 days. *)
Lemma mass_bins_classified_witness :
  exists out,
    run (fun _ => Table [[("pl_name", CStr "b"); ("pl_masse", CFloat 0.5);
                          ("pl_orbper", CFloat 730.5)]])
      (comparar_con_tierra "b")
    = Returns out
    /\ interpretacion_de out
       = Some (JStr "Masa similar a la Tierra (super-Tierra)").
Proof.
  destruct (proj2 (proj2 mass_bins_classified)
              (fun _ => Table [[("pl_name", CStr "b"); ("pl_masse", CFloat 0.5);
                                ("pl_orbper", CFloat 730.5)]])
              "b" _ [] (CFloat 730.5) (CFloat 0.5)
              eq_refl eq_refl eq_refl ltac:(discriminate) eq_refl
              ltac:(discriminate))
    as (out & Hrun & _ & _ & H & _).
  exists out. split; [exact Hrun | apply H; reflexivity].
Defined.

(* ================================================================== *)
(** * The bodies of the two deriving tools *)
(* ================================================================== *)

(** Case analysis on the computations bound in [H], first to last. *)
Ltac por_pasos H :=
  repeat lazymatch type of H with
    | bind ?c _ = _ => destruct c eqn:?; cbn [bind] in H
    | (if ?b then _ else _) = _ => destruct b eqn:?
    | (let '(_, _) := ?p in _) = _ => destruct p eqn:?
    end.

Section Bodies.

Lemma comparacion_returns (data : row) (out : json) :
  comparacion data = Returns out -> exito_unico out.
Proof.
  unfold comparacion. intros H. por_pasos H; try discriminate.
  injection H as <-. eexists. reflexivity.
Qed.

Lemma resultado_escape_returns (data : row) (out : json) :
  resultado_escape data = Returns out -> exito_unico out.
Proof.
  unfold resultado_escape. intros H. por_pasos H; try discriminate.
  injection H as <-. eexists. reflexivity.
Qed.

Lemma escape_returns (nombre : string) (data : row) (out : json) :
  escape nombre data = Returns out ->
  out = sin_masa_o_radio nombre \/ exito_unico out.
Proof.
  unfold escape. intros H. por_pasos H; try discriminate.
  - left. now injection H as <-.
  - right. now apply resultado_escape_returns with data.
Qed.

Lemma exito_unico_campos (out : json) :
  exito_unico out ->
  campo "count" out = Some (JInt 1)
  /\ exists dato, campo "data" out = Some (JList [dato]).
Proof. intros (dato & ->). split; [reflexivity | now exists dato]. Qed.

Variables (nombre : string) (data : row) (masa radio : cell).
Hypothesis Hmasa : assoc "pl_masse" data = Some masa.
Hypothesis Hradio : assoc "pl_rade" data = Some radio.

Lemma escape_sin_datos :
  isna masa = true \/ isna radio = true ->
  escape nombre data = Returns (sin_masa_o_radio nombre).
Proof.
  intros H. unfold escape, getitem. rewrite Hmasa. cbn [bind].
  destruct (isna masa); cbn [bind]; [reflexivity|].
  rewrite Hradio. cbn [bind].
  destruct H as [H | ->]; [discriminate | reflexivity].
Qed.

Lemma escape_con_datos :
  isna masa = false -> isna radio = false ->
  escape nombre data = resultado_escape data.
Proof.
  intros Hm Hr. unfold escape, getitem. rewrite Hmasa. cbn [bind].
  rewrite Hm. cbn [bind]. rewrite Hradio. cbn [bind]. now rewrite Hr.
Qed.

(** With numbers for the mass and the radius and a name in the row, the
    result follows the velocity that the formula returns. *)
Lemma resultado_escape_numeros (m r v : float) (pl_name : cell) :
  masa = CFloat m -> radio = CFloat r ->
  assoc "pl_name" data = Some pl_name ->
  velocidad_escape_kms (m * MASA_TIERRA_KG) (r * RADIO_TIERRA_M) = Returns v ->
  resultado_escape data
  = Returns
      (JDict [("status", JStr "success");
              ("count", JInt 1);
              ("data",
               JList
                 [JDict
                    [("pl_name", json_of_cell pl_name);
                     ("pl_masse", JFloat m);
                     ("pl_rade", JFloat r);
                     ("velocidad_escape_kms", JFloat (round2 v));
                     ("velocidad_escape_tierra", JFloat V_ESCAPE_TIERRA);
                     ("ratio_vs_tierra", JFloat (round2 (v / V_ESCAPE_TIERRA)));
                     ("dificultad_escape", JStr (snd (clasificar_escape v)));
                     ("interpretacion",
                      JStr (join "; " [fst (clasificar_escape v);
                                       nota_cohete v]));
                     ("contexto",
                      JDict [("luna", JFloat 2.4); ("marte", JFloat 5.0);
                             ("tierra", JFloat 11.2); ("jupiter", JFloat 59.5);
                             ("sol", JFloat 617.5)])]])]).
Proof.
  intros Em Er Hn Hv. subst masa radio.
  unfold resultado_escape, getitem. rewrite Hmasa, Hradio, Hn.
  cbn [bind cell_mul]. rewrite Hv. cbn [bind json_of_cell].
  now destruct (clasificar_escape v).
Qed.

End Bodies.

(* ================================================================== *)
(** * C7: missing mass or radius *)
(* ================================================================== *)

(** C7. When the mass or the radius of the fetched row is null or NaN,
    [calcular_velocidad_escape] returns the error envelope whose message
    names the missing mass or radius data: nothing is raised and no velocity
    is computed.  When neither is null the guard is passed and the result is
    that of the computation; with numbers for both, it reports the velocity
    that the formula returns. *)
Theorem missing_mass_or_radius_reported
    (tap : string -> response) (nombre : string) (fila : row)
    (resto : dataframe) (masa radio : cell) :
  en_blanco nombre = false ->
  tap (query_calcular_velocidad_escape (replace "'" "''" nombre))
  = Table (fila :: resto) ->
  assoc "pl_masse" fila = Some masa ->
  assoc "pl_rade" fila = Some radio ->
  (isna masa = true \/ isna radio = true ->
   run tap (calcular_velocidad_escape nombre)
   = Returns (sin_masa_o_radio nombre)
   /\ campo "status" (sin_masa_o_radio nombre) = Some (JStr "error")
   /\ campo "velocidad_escape_kms" (sin_masa_o_radio nombre) = None
   /\ campo "data" (sin_masa_o_radio nombre) = Some (JList [])
   /\ exists msg,
        campo "message" (sin_masa_o_radio nombre) = Some (JStr msg)
        /\ contiene "no tiene datos de masa o radio" msg
        /\ contiene nombre msg)
  /\ (isna masa = false -> isna radio = false ->
      run tap (calcular_velocidad_escape nombre)
      = Returns (capturar (resultado_escape fila))
      /\ run tap (calcular_velocidad_escape nombre)
         <> Returns (sin_masa_o_radio nombre)
      /\ forall m r v pl_name,
           masa = CFloat m -> radio = CFloat r ->
           assoc "pl_name" fila = Some pl_name ->
           velocidad_escape_kms (m * MASA_TIERRA_KG) (r * RADIO_TIERRA_M)
           = Returns v ->
           exists out dato,
             run tap (calcular_velocidad_escape nombre) = Returns out
             /\ campo "status" out = Some (JStr "success")
             /\ campo "data" out = Some (JList [dato])
             /\ campo "velocidad_escape_kms" dato = Some (JFloat (round2 v))).
Proof.
  intros Hb Htap Hm Hr.
  assert (Hrun : run tap (calcular_velocidad_escape nombre)
                 = Returns (capturar (escape nombre fila))).
  { unfold calcular_velocidad_escape. rewrite Hb. cbn [run].
    now rewrite Htap, (empty_con_valor _ _ _ _ Hm). }
  split.
  - intros H. rewrite Hrun, (escape_sin_datos nombre fila masa radio Hm Hr H).
    split; [reflexivity|]. split; [reflexivity|]. split; [reflexivity|].
    split; [reflexivity|].
    eexists. split; [reflexivity|]. split.
    + exists ("El exoplaneta '" ++ nombre ++ "' "),
             " necesarios para calcular velocidad de escape".
      now rewrite !append_assoc.
    + exists "El exoplaneta '". eexists. reflexivity.
  - intros Hnm Hnr.
    rewrite Hrun, (escape_con_datos nombre fila masa radio Hm Hr Hnm Hnr).
    split; [reflexivity|]. split.
    { destruct (resultado_escape fila) as [out | e] eqn:E; cbn [capturar].
      - destruct (resultado_escape_returns _ _ E) as (dato & ->). discriminate.
      - discriminate. }
    intros m r v pl_name Em Er Hn Hv.
    rewrite (resultado_escape_numeros fila masa radio Hm Hr m r v pl_name
               Em Er Hn Hv).
    eexists; eexists. split; [reflexivity|]. now repeat split.
Qed.

(** The theorem for a row whose radius is NaN. *)
Lemma missing_mass_or_radius_reported_witness :
  run (fun _ => Table [[("pl_name", CStr "b"); ("pl_masse", CFloat 1);
                        ("pl_rade", CFloat nan)]])
    (calcular_velocidad_escape "b")
  = Returns (sin_masa_o_radio "b").
Proof.
  apply (missing_mass_or_radius_reported
           (fun _ => Table [[("pl_name", CStr "b"); ("pl_masse", CFloat 1);
                             ("pl_rade", CFloat nan)]])
           "b" _ [] (CFloat 1) (CFloat nan) eq_refl eq_refl eq_refl eq_refl).
  right. reflexivity.
Defined.

(* ================================================================== *)
(** * C10: one datum, from the first row *)
(* ================================================================== *)

Lemma capturar_exito (c : outcome json) :
  campo "status" (capturar c) = Some (JStr "success") ->
  exists out, c = Returns out.
Proof.
  destruct c as [out | e]; [now exists out | discriminate].
Qed.

(** C10. A success envelope of [comparar_con_tierra] or of
    [calcular_velocidad_escape] has count 1 and a data list of exactly one
    element, and the rows after the first have no part in what the two tools
    return. *)
Theorem derived_tools_use_first_row (tap : string -> response) (nombre : string) :
  (forall out,
      run tap (comparar_con_tierra nombre) = Returns out
      \/ run tap (calcular_velocidad_escape nombre) = Returns out ->
      campo "status" out = Some (JStr "success") ->
      campo "count" out = Some (JInt 1)
      /\ exists dato, campo "data" out = Some (JList [dato]))
  /\ run tap (comparar_con_tierra nombre)
     = run (fun q => solo_primera (tap q)) (comparar_con_tierra nombre)
  /\ run tap (calcular_velocidad_escape nombre)
     = run (fun q => solo_primera (tap q)) (calcular_velocidad_escape nombre)
  /\ (forall fila resto resto',
         run (fun _ => Table (fila :: resto)) (comparar_con_tierra nombre)
         = run (fun _ => Table (fila :: resto')) (comparar_con_tierra nombre)
         /\ run (fun _ => Table (fila :: resto))
              (calcular_velocidad_escape nombre)
            = run (fun _ => Table (fila :: resto'))
                (calcular_velocidad_escape nombre)).
Proof.
  split.
  { intros out H Hs. apply exito_unico_campos.
    unfold comparar_con_tierra, calcular_velocidad_escape in H.
    destruct (en_blanco nombre); cbn [run] in H.
    - destruct H as [H | H]; injection H as <-; discriminate.
    - destruct H as [H | H]; injection H as <-.
      + destruct (tap _) as [df | msg | msg]; try discriminate.
        destruct (empty df); [discriminate|].
        destruct (capturar_exito _ Hs) as (out & E). rewrite E.
        now apply comparacion_returns with (iloc0 df).
      + destruct (tap _) as [df | msg | msg]; try discriminate.
        destruct (empty df); [discriminate|].
        destruct (capturar_exito _ Hs) as (out & E). rewrite E in *.
        destruct (escape_returns _ _ _ E) as [-> | H]; [discriminate | exact H]. }
  unfold comparar_con_tierra, calcular_velocidad_escape.
  destruct (en_blanco nombre); cbn [run].
  - repeat split.
  - split; [|split].
    + now destruct (tap _) as [[|[|c fila] resto] | msg | msg].
    + now destruct (tap _) as [[|[|c fila] resto] | msg | msg].
    + intros fila resto resto'.
      now rewrite (empty_primera fila resto resto').
Qed.

(** The theorem for a service that answers with two rows of the same name:
    the second row does not show. *)
Lemma derived_tools_use_first_row_witness :
  run (fun _ => Table [[("pl_name", CStr "b"); ("pl_masse", CFloat 1);
                        ("pl_rade", CFloat 1)];
                       [("pl_name", CStr "b"); ("pl_masse", CFloat 300);
                        ("pl_rade", CFloat 11)]])
    (calcular_velocidad_escape "b")
  = run (fun _ => Table [[("pl_name", CStr "b"); ("pl_masse", CFloat 1);
                          ("pl_rade", CFloat 1)]])
      (calcular_velocidad_escape "b")
  /\ forall out,
       run (fun _ => Table [[("pl_name", CStr "b"); ("pl_masse", CFloat 1);
                             ("pl_rade", CFloat 1)];
                            [("pl_name", CStr "b"); ("pl_masse", CFloat 300);
                             ("pl_rade", CFloat 11)]])
         (calcular_velocidad_escape "b") = Returns out ->
       campo "count" out = Some (JInt 1).
Proof.
  split.
  - apply (proj2 (proj2 (proj2 (derived_tools_use_first_row
                                  (fun _ => Table []) "b")))).
  - intros out H.
    refine (proj1 (proj1 (derived_tools_use_first_row _ "b") out
                     (or_intror H) _)).
    vm_compute in H. injection H as <-. reflexivity.
Defined.

(* ================================================================== *)
(** * C2: the Earth twin *)
(* ================================================================== *)

(** C2, evaluated.  For a row of mass 1.0 and radius 1.0 the tool reports
    11.19 km/s and a ratio of 1.0, and since 11.19 is not below 11 the
    difficulty is that of the tier from 11 to 30, not that of the tier
    [Similar a la Tierra]. *)
Theorem earth_twin_escape
    (tap : string -> response) (nombre : string) (fila : row)
    (resto : dataframe) (pl_name : cell) :
  en_blanco nombre = false ->
  tap (query_calcular_velocidad_escape (replace "'" "''" nombre))
  = Table (fila :: resto) ->
  assoc "pl_name" fila = Some pl_name ->
  assoc "pl_masse" fila = Some (CFloat 1) ->
  assoc "pl_rade" fila = Some (CFloat 1) ->
  velocidad_escape_kms (1 * MASA_TIERRA_KG) (1 * RADIO_TIERRA_M)
  = Returns 11.185726492371471%float
  /\ clasificar_escape 11.185726492371471
     = ("Alta - gravedad superficial significativa", "Difícil de escapar")
  /\ run tap (calcular_velocidad_escape nombre)
     = Returns
         (JDict [("status", JStr "success");
                 ("count", JInt 1);
                 ("data",
                  JList
                    [JDict
                       [("pl_name", json_of_cell pl_name);
                        ("pl_masse", JFloat 1);
                        ("pl_rade", JFloat 1);
                        ("velocidad_escape_kms", JFloat 11.19);
                        ("velocidad_escape_tierra", JFloat 11.2);
                        ("ratio_vs_tierra", JFloat 1);
                        ("dificultad_escape", JStr "Difícil de escapar");
                        ("interpretacion",
                         JStr "Alta - gravedad superficial significativa; Un cohete tipo Saturn V podría escapar");
                        ("contexto",
                         JDict [("luna", JFloat 2.4); ("marte", JFloat 5.0);
                                ("tierra", JFloat 11.2); ("jupiter", JFloat 59.5);
                                ("sol", JFloat 617.5)])]])]).
Proof.
  intros Hb Htap Hn Hm Hr.
  assert (Hv : velocidad_escape_kms (1 * MASA_TIERRA_KG) (1 * RADIO_TIERRA_M)
               = Returns 11.185726492371471%float) by (vm_compute; reflexivity).
  split; [exact Hv|]. split; [vm_compute; reflexivity|].
  unfold calcular_velocidad_escape. rewrite Hb. cbn [run].
  rewrite Htap, (empty_con_valor _ _ _ _ Hm). cbn [iloc0 hd].
  rewrite (escape_con_datos nombre fila _ _ Hm Hr eq_refl eq_refl).
  rewrite (resultado_escape_numeros fila _ _ Hm Hr 1 1 _ pl_name
             eq_refl eq_refl Hn Hv).
  cbn [capturar]. vm_compute. reflexivity.
Qed.

(** The theorem for the row of the Earth itself. *)
Lemma earth_twin_escape_witness :
  exists out dato,
    run (fun _ => Table [[("pl_name", CStr "Tierra"); ("pl_masse", CFloat 1);
                          ("pl_rade", CFloat 1)]])
      (calcular_velocidad_escape "Tierra") = Returns out
    /\ campo "data" out = Some (JList [dato])
    /\ campo "dificultad_escape" dato = Some (JStr "Difícil de escapar").
Proof.
  destruct (earth_twin_escape
              (fun _ => Table [[("pl_name", CStr "Tierra"); ("pl_masse", CFloat 1);
                                ("pl_rade", CFloat 1)]])
              "Tierra" _ [] (CStr "Tierra") eq_refl eq_refl eq_refl eq_refl eq_refl)
    as (_ & _ & H).
  rewrite H. eexists; eexists. repeat split.
Defined.


(* ================================================================== *)
(** * C9: monotonicity of the escape velocity *)
(* ================================================================== *)


Section ExactFormula.

Local Open Scope R_scope.



End ExactFormula.




(* ================================================================== *)
(** * Every call ends in an envelope *)
(* ================================================================== *)

Section Envelopes.

Variable repr_float : float -> string.
Variable pandas_double : float -> float.
Variable tap : string -> response.

Lemma validar_casos (valor maximo : Z) (nombre : string) :
  validar_numero_positivo valor nombre maximo = Returns tt
  \/ exists msg,
       validar_numero_positivo valor nombre maximo = Raises (ValueError msg).
Proof.
  unfold validar_numero_positivo.
  destruct (valor <=? 0)%Z; [right; now eexists|].
  destruct (valor >? maximo)%Z; [right; now eexists | now left].
Qed.

Lemma sobre_error (campos : list (string * json)) (msg : string) :
  assoc "message" (("status", JStr "error") :: campos) = Some (JStr msg) ->
  assoc "count" (("status", JStr "error") :: campos) = None ->
  sobre_valido (JDict (("status", JStr "error") :: campos)).
Proof. intros Hm Hc. right; right. split; [reflexivity|]. split; [exact Hc | now exists msg]. Qed.

Lemma sobre_exito_unico (out : json) : exito_unico out -> sobre_valido out.
Proof.
  intros (dato & ->). left. split; [reflexivity|].
  exists [dato]. repeat split. discriminate.
Qed.

Lemma ejecutar_valido (q d : string) :
  exists out,
    run tap (ejecutar_query_segura pandas_double q d) = Returns out
    /\ sobre_valido out.
Proof.
  cbn. eexists. split; [reflexivity|].
  destruct (tap q) as [df | msg | msg]; [destruct (empty df) eqn:E|..].
  - right; left. repeat split. now eexists.
  - left. split; [reflexivity|].
    exists (records pandas_double df).
    rewrite records_length. repeat split.
    destruct df; [discriminate E | discriminate].
  - now apply sobre_error with (msg := ("Error en el servicio TAP: " ++ msg)%string).
  - now apply sobre_error with (msg := ("Error inesperado: " ++ msg)%string).
Qed.

Lemma tras_validar_valido (valor maximo : Z) (nombre q d : string) :
  exists out,
    run tap (tras_validar (validar_numero_positivo valor nombre maximo)
               (ejecutar_query_segura pandas_double q d)) = Returns out
    /\ sobre_valido out.
Proof.
  destruct (validar_casos valor maximo nombre) as [-> | (msg & ->)].
  - apply ejecutar_valido.
  - cbn. eexists. split; [reflexivity|]. now apply sobre_error with (msg := msg).
Qed.

Lemma capturar_valido (c : outcome json) :
  (forall out, c = Returns out -> sobre_valido out) -> sobre_valido (capturar c).
Proof.
  intros H. destruct c as [out | e]; cbn; [now apply H|].
  now apply sobre_error with (msg := ("Error inesperado: " ++ str_exc e)%string).
Qed.

Lemma comparar_valido (nombre : string) :
  exists out,
    run tap (comparar_con_tierra nombre) = Returns out /\ sobre_valido out.
Proof.
  unfold comparar_con_tierra. destruct (en_blanco nombre); cbn.
  - eexists. split; [reflexivity|].
    now apply sobre_error with (msg := "El nombre no puede estar vacío"%string).
  - eexists. split; [reflexivity|].
    destruct (tap _) as [df | msg | msg]; [destruct (empty df)|..].
    + right; left. repeat split. now eexists.
    + apply capturar_valido. intros out H.
      now apply sobre_exito_unico, comparacion_returns with (iloc0 df).
    + now apply sobre_error with (msg := ("Error inesperado: " ++ msg)%string).
    + now apply sobre_error with (msg := ("Error inesperado: " ++ msg)%string).
Qed.

Lemma calcular_valido (nombre : string) :
  exists out,
    run tap (calcular_velocidad_escape nombre) = Returns out /\ sobre_valido out.
Proof.
  unfold calcular_velocidad_escape. destruct (en_blanco nombre); cbn.
  - eexists. split; [reflexivity|].
    now apply sobre_error with (msg := "El nombre no puede estar vacío"%string).
  - eexists. split; [reflexivity|].
    destruct (tap _) as [df | msg | msg]; [destruct (empty df)|..].
    + right; left. repeat split. now eexists.
    + apply capturar_valido. intros out H.
      destruct (escape_returns _ _ _ H) as [-> | Hex].
      * unfold sin_masa_o_radio. eapply sobre_error; reflexivity.
      * now apply sobre_exito_unico.
    + now apply sobre_error with (msg := ("Error inesperado: " ++ msg)%string).
    + now apply sobre_error with (msg := ("Error inesperado: " ++ msg)%string).
Qed.

(** X1. Whatever the call and whatever the service answers, the tool
    returns: no exception leaves it, and what it returns is an envelope of
    one of three shapes: [success] with a non-empty data list and its
    length as count, [empty] with an empty data list and a message, or
    [error] with a message and no count. *)
Theorem every_call_returns_an_envelope (c : llamada) :
  exists out,
    run tap (herramienta repr_float pandas_double c) = Returns out
    /\ sobre_valido out.
Proof.
  destruct c; cbn [herramienta].
  - unfold buscar_datos_exoplaneta. destruct (en_blanco nombre).
    + cbn. eexists. split; [reflexivity|].
      now apply sobre_error with (msg := "El nombre no puede estar vacío"%string).
    + apply ejecutar_valido.
  - apply tras_validar_valido.
  - apply tras_validar_valido.
  - apply tras_validar_valido.
  - apply ejecutar_valido.
  - apply tras_validar_valido.
  - apply tras_validar_valido.
  - apply ejecutar_valido.
  - apply comparar_valido.
  - apply calcular_valido.
Qed.

Lemma fallo_ejecutar (q d q' msg : string) :
  queries (ejecutar_query_segura pandas_double q d) = [q'] ->
  (tap q' = ServiceFault msg ->
   run tap (ejecutar_query_segura pandas_double q d)
   = Returns (error_servicio msg))
  /\ (tap q' = OtherFault msg ->
      run tap (ejecutar_query_segura pandas_double q d)
      = Returns (error_inesperado msg)).
Proof.
  unfold ejecutar_query_segura. cbn [queries run]. intros [= <-].
  split; now intros ->.
Qed.

Lemma fallo_tras_validar (valor maximo : Z) (nombre q d q' msg : string) :
  queries (tras_validar (validar_numero_positivo valor nombre maximo)
             (ejecutar_query_segura pandas_double q d)) = [q'] ->
  (tap q' = ServiceFault msg ->
   run tap (tras_validar (validar_numero_positivo valor nombre maximo)
              (ejecutar_query_segura pandas_double q d))
   = Returns (error_servicio msg))
  /\ (tap q' = OtherFault msg ->
      run tap (tras_validar (validar_numero_positivo valor nombre maximo)
                 (ejecutar_query_segura pandas_double q d))
      = Returns (error_inesperado msg)).
Proof.
  destruct (validar_casos valor maximo nombre) as [-> | (m & ->)];
    cbn [tras_validar]; [apply fallo_ejecutar | discriminate].
Qed.

(** X2. When the service fails, the eight tools that end in
    [ejecutar_query_segura] tell a [DALServiceError] ([service_error], "Error
    en el servicio TAP") from any other exception ([unknown]); the two
    deriving tools report both as [unknown], "Error inesperado". *)
Theorem service_faults_reported (c : llamada) (q msg : string) :
  queries (herramienta repr_float pandas_double c) = [q] ->
  (tap q = ServiceFault msg ->
   run tap (herramienta repr_float pandas_double c)
   = Returns (if deriva c then error_inesperado msg else error_servicio msg))
  /\ (tap q = OtherFault msg ->
      run tap (herramienta repr_float pandas_double c)
      = Returns (error_inesperado msg)).
Proof.
  destruct c; cbn [herramienta deriva];
    try apply fallo_tras_validar; try apply fallo_ejecutar.
  - unfold buscar_datos_exoplaneta. destruct (en_blanco nombre);
      [discriminate | apply fallo_ejecutar].
  - unfold comparar_con_tierra. destruct (en_blanco nombre_exoplaneta);
      [discriminate|]. cbv zeta. unfold queries, run. intros Hq.
    pose proof (f_equal (fun l => nth 0 l ""%string) Hq) as E.
    cbn [nth] in E. subst q. split; now intros ->.
  - unfold calcular_velocidad_escape. destruct (en_blanco nombre_exoplaneta);
      [discriminate|]. cbv zeta. unfold queries, run. intros Hq.
    pose proof (f_equal (fun l => nth 0 l ""%string) Hq) as E.
    cbn [nth] in E. subst q. split; now intros ->.
Qed.

End Envelopes.

(** The theorem for the comparison tool when the service raises a
    [DALServiceError]. *)
Lemma service_faults_reported_witness :
  run (fun _ => ServiceFault "timeout") (comparar_con_tierra "b")
  = Returns (error_inesperado "timeout")
  /\ run (fun _ => ServiceFault "timeout")
       (estadisticas_metodos_descubrimiento (fun x => x))
     = Returns (error_servicio "timeout").
Proof.
  split.
  - apply (proj1 (service_faults_reported (fun _ => "") (fun x => x)
                    (fun _ => ServiceFault "timeout") (LComparar "b") _
                    "timeout" eq_refl)).
    reflexivity.
  - apply (proj1 (service_faults_reported (fun _ => "") (fun x => x)
                    (fun _ => ServiceFault "timeout") LEstadisticas _
                    "timeout" eq_refl)).
    reflexivity.
Defined.

(* ================================================================== *)
(** * Names, quotes and numbers *)
(* ================================================================== *)

Lemma forallb_lstrip (l : list N) :
  forallb isspace (lstrip l) = forallb isspace l.
Proof.
  induction l as [|cp l IH]; [reflexivity|]. cbn [lstrip].
  destruct (isspace cp) eqn:E; [now cbn; rewrite E | reflexivity].
Qed.

Lemma lstrip_nil_iff (l : list N) :
  lstrip l = [] <-> forallb isspace l = true.
Proof.
  split; [|apply lstrip_espacios].
  induction l as [|cp l IH]; [reflexivity|]. cbn.
  destruct (isspace cp); [exact IH | discriminate].
Qed.

Lemma forallb_rev {A : Type} (f : A -> bool) (l : list A) :
  forallb f (List.rev l) = forallb f l.
Proof.
  induction l as [|a l IH]; [reflexivity|]. cbn.
  rewrite forallb_app, IH. cbn. rewrite andb_true_r. apply andb_comm.
Qed.

(** The test of the name tools is the test "every code point is white
    space". *)
Lemma en_blanco_iff (s : string) :
  en_blanco s = forallb isspace (decode s).
Proof.
  unfold en_blanco, strip, rstrip.
  destruct s as [|c t]; [reflexivity|]. cbn [truthy negb orb].
  set (l := decode (String c t)).
  destruct (forallb isspace l) eqn:E.
  - apply lstrip_nil_iff in E. now rewrite E.
  - destruct (List.rev (lstrip (List.rev (lstrip l)))) as [|x r] eqn:Er;
      [|reflexivity].
    apply (f_equal (@List.rev N)) in Er. rewrite rev_involutive in Er.
    cbn [List.rev] in Er. apply lstrip_nil_iff in Er.
    rewrite forallb_rev, forallb_lstrip in Er. congruence.
Qed.

(** X3. Each of the three tools that take a name submits its query exactly
    when the name has a code point that is not white space; otherwise it
    submits nothing. *)
Theorem name_tools_query_iff_not_blank (pd : float -> float) (nombre : string) :
  (queries (buscar_datos_exoplaneta pd nombre)
   = if forallb isspace (decode nombre) then []
     else [query_buscar_datos_exoplaneta (replace "'" "''" nombre)])
  /\ (queries (comparar_con_tierra nombre)
      = if forallb isspace (decode nombre) then []
        else [query_comparar_con_tierra (replace "'" "''" nombre)])
  /\ (queries (calcular_velocidad_escape nombre)
      = if forallb isspace (decode nombre) then []
        else [query_calcular_velocidad_escape (replace "'" "''" nombre)]).
Proof.
  unfold buscar_datos_exoplaneta, comparar_con_tierra, calcular_velocidad_escape.
  rewrite en_blanco_iff. now destruct (forallb isspace (decode nombre)).
Qed.

Section Quotes.

Lemma literal_cerrado_doblar (s : string) :
  literal_cerrado (doblar_comillas s) = true.
Proof.
  induction s as [|c s IH]; [reflexivity|]. cbn [doblar_comillas].
  destruct (Ascii.eqb c "'") eqn:E.
  - cbn. exact IH.
  - cbn [literal_cerrado]. now rewrite E.
Qed.

Lemma comillas_doblar (s : string) :
  comillas (doblar_comillas s) = (2 * comillas s)%nat.
Proof.
  induction s as [|c s IH]; [reflexivity|]. cbn [doblar_comillas comillas].
  destruct (Ascii.eqb c "'") eqn:E.
  - cbn. rewrite IH. lia.
  - cbn [comillas]. rewrite E, IH. lia.
Qed.

Lemma length_doblar (s : string) :
  String.length (doblar_comillas s) = (String.length s + comillas s)%nat.
Proof.
  induction s as [|c s IH]; [reflexivity|]. cbn [doblar_comillas comillas].
  destruct (Ascii.eqb c "'") eqn:E; cbn; rewrite IH; lia.
Qed.

Lemma doblar_sin_comillas (s : string) :
  doblar_comillas s = s <-> comillas s = O.
Proof.
  split.
  - intros H. apply (f_equal String.length) in H.
    rewrite length_doblar in H. lia.
  - induction s as [|c s IH]; [reflexivity|]. cbn [doblar_comillas comillas].
    destruct (Ascii.eqb c "'"); [discriminate|].
    intros H. now rewrite IH.
Qed.

End Quotes.

Lemma literal_abierto (a b : string) :
  comillas a = O -> comillas b = O ->
  literal_cerrado (a ++ String "'" b) = false.
Proof.
  intros Ha Hb. induction a as [|c a IH]; cbn [append literal_cerrado].
  - cbn. destruct b as [|c' b']; [reflexivity|].
    cbn [comillas] in Hb. destruct (Ascii.eqb c' "'"); [discriminate | reflexivity].
  - cbn [comillas] in Ha. destruct (Ascii.eqb c "'"); [discriminate|].
    now apply IH.
Qed.

(** X4. The escaped form of any string stays between the quotes of a query
    literal: every quote in it is one of a pair, so none closes the literal
    early, whereas a string with a single quote, left as it is, would close
    it. *)
Theorem escaped_text_stays_inside_literal (s : string) :
  literal_cerrado (replace "'" "''" s) = true
  /\ comillas (replace "'" "''" s) = (2 * comillas s)%nat
  /\ forall a b, comillas a = O -> comillas b = O ->
                 literal_cerrado (a ++ String "'" b) = false.
Proof.
  rewrite escapar_doblar. split; [apply literal_cerrado_doblar|].
  split; [apply comillas_doblar | exact literal_abierto].
Qed.

(** The theorem for the name [O'Neil], escaped and as it is. *)
Lemma escaped_text_stays_inside_literal_witness :
  literal_cerrado (replace "'" "''" "O'Neil") = true
  /\ literal_cerrado ("O" ++ String "'" "Neil") = false.
Proof.
  destruct (escaped_text_stays_inside_literal "O'Neil") as (H & _ & Hab).
  split; [exact H | apply Hab; reflexivity].
Defined.

(** X5. Escaping changes nothing but the quotes: a string without a quote
    is interpolated as it is (and only such a string), and the escaped
    string is longer by one character for each quote. *)
Theorem escaping_changes_only_quotes (s : string) :
  (replace "'" "''" s = s <-> comillas s = O)
  /\ String.length (replace "'" "''" s) = (String.length s + comillas s)%nat.
Proof.
  rewrite escapar_doblar. split; [apply doblar_sin_comillas | apply length_doblar].
Qed.

(** The theorem for the name [Kepler-442 b], which has no quote. *)
Lemma escaping_changes_only_quotes_witness :
  replace "'" "''" "Kepler-442 b" = "Kepler-442 b".
Proof.
  apply (proj1 (escaping_changes_only_quotes "Kepler-442 b")). reflexivity.
Defined.

Section Numbers.

Lemma string_of_uint_digitos (d : Decimal.uint) :
  solo_digitos (NilEmpty.string_of_uint d) = true.
Proof. induction d; cbn; auto. Qed.

Lemma str_int_digitos (n : Z) : (0 <= n)%Z -> solo_digitos (str_int n) = true.
Proof.
  intros Hn. unfold str_int. destruct n as [|p|p]; [reflexivity| |lia].
  cbn [Z.to_int NilZero.string_of_int]. unfold NilZero.string_of_uint.
  destruct (Pos.to_uint p); try reflexivity; apply string_of_uint_digitos.
Qed.

Lemma str_int_vuelve (n : Z) :
  option_map Z.of_int (NilZero.int_of_string (str_int n)) = Some n.
Proof.
  unfold str_int. rewrite NilZero.isi.
  - cbn [option_map]. now rewrite DecimalZ.of_to.
  - destruct n as [|p|p]; cbn; try discriminate.
    intros [= H]. now apply DecimalPos.Unsigned.to_uint_nonnil in H.
  - destruct n as [|p|p]; cbn; try discriminate.
    intros [= H]. now apply DecimalPos.Unsigned.to_uint_nonnil in H.
Qed.

End Numbers.

(** X6. The decimal text of an integer, as the f-strings put it in the
    messages and in the row limit of the queries, reads back as the same
    integer, so two different integers never print alike; for an integer
    that is not negative it is made of digits only. *)
Theorem str_int_reads_back (n : Z) :
  option_map Z.of_int (NilZero.int_of_string (str_int n)) = Some n
  /\ (forall m, str_int n = str_int m -> n = m)
  /\ ((0 <= n)%Z -> solo_digitos (str_int n) = true).
Proof.
  split; [apply str_int_vuelve|]. split; [|apply str_int_digitos].
  intros m H. pose proof (str_int_vuelve n) as Hn. rewrite H in Hn.
  rewrite str_int_vuelve in Hn. now injection Hn.
Qed.

(** The theorem at the limit 200. *)
Lemma str_int_reads_back_witness : solo_digitos (str_int 200) = true.
Proof. apply (proj2 (proj2 (str_int_reads_back 200))). lia. Defined.

(* ================================================================== *)
(** * The comparison with the Earth: the row and the derived fields *)
(* ================================================================== *)

Section ComparisonRow.

Variables (fila : row) (periodo masa : cell).
Hypothesis Hperiodo : assoc "pl_orbper" fila = Some periodo.
Hypothesis periodo_numero : forall s, periodo <> CStr s.
Hypothesis Hmasa : assoc "pl_masse" fila = Some masa.

Lemma comparacion_datos (notas : list string) :
  interpretacion_masa masa = Returns notas ->
  comparacion fila
  = Returns
      (JDict [("status", JStr "success");
              ("count", JInt 1);
              ("data",
               JList [json_of_dict
                        (setitem (setitem fila "años_terrestres" (años_de periodo))
                           "interpretacion"
                           (match notas with
                            | [] => CNone
                            | _ :: _ => CStr (join "; " notas)
                            end))])]).
Proof.
  intros Hnotas. unfold comparacion, getitem. rewrite Hperiodo. cbn [bind].
  destruct periodo as [| x | s]; [| |now elim (periodo_numero s)].
  - cbn [is_not_none andb bind años_de].
    rewrite assoc_setitem_other by reflexivity.
    rewrite Hmasa. cbn [bind]. now rewrite Hnotas.
  - cbn [is_not_none isna andb cell_truediv años_de]. rewrite truediv_periodo.
    destruct (is_nan x); cbn [negb bind];
      rewrite assoc_setitem_other by reflexivity;
      rewrite Hmasa; cbn [bind]; now rewrite Hnotas.
Qed.

End ComparisonRow.

Lemma interpretacion_masa_numero (masa : cell) :
  (forall s, masa <> CStr s) ->
  exists notas, interpretacion_masa masa = Returns notas.
Proof.
  intros Hm. destruct masa as [| m | s]; [now exists [] | | now elim (Hm s)].
  eexists. apply interpretacion_masa_float.
Qed.

(** X7. When [comparar_con_tierra] succeeds (the period and the mass of the
    first row are numbers or missing values), its one datum is the row
    itself with two fields set: every other column keeps the value of the
    row, and [años_terrestres] is the period divided by 365.25 and rounded
    to two decimals, or null when the period is null or NaN. *)
Theorem comparison_keeps_the_row
    (tap : string -> response) (nombre : string) (fila : row)
    (resto : dataframe) (periodo masa : cell) :
  en_blanco nombre = false ->
  tap (query_comparar_con_tierra (replace "'" "''" nombre))
  = Table (fila :: resto) ->
  assoc "pl_orbper" fila = Some periodo -> (forall s, periodo <> CStr s) ->
  assoc "pl_masse" fila = Some masa -> (forall s, masa <> CStr s) ->
  exists dato,
    run tap (comparar_con_tierra nombre)
    = Returns (JDict [("status", JStr "success"); ("count", JInt 1);
                      ("data", JList [dato])])
    /\ campo "años_terrestres" dato = Some (json_of_cell (años_de periodo))
    /\ forall k,
         String.eqb k "años_terrestres" = false ->
         String.eqb k "interpretacion" = false ->
         campo k dato = option_map json_of_cell (assoc k fila).
Proof.
  intros Hb Htap Hp Hpn Hm Hmn.
  destruct (interpretacion_masa_numero masa Hmn) as (notas & Hn).
  eexists. split; [|split].
  - unfold comparar_con_tierra. rewrite Hb. cbn [run].
    rewrite Htap, (empty_con_valor _ _ _ _ Hp). cbn [iloc0 hd].
    rewrite (comparacion_datos fila periodo masa Hp Hpn Hm notas Hn).
    reflexivity.
  - rewrite campo_json_of_dict, assoc_setitem_other by reflexivity.
    now rewrite assoc_setitem_same.
  - intros k Hk1 Hk2.
    rewrite campo_json_of_dict.
    now rewrite !assoc_setitem_other by assumption.
Qed.

(** The theorem for a row with a period of 730.5 days: two years. *)
Lemma comparison_keeps_the_row_witness :
  exists dato,
    run (fun _ => Table [[("pl_name", CStr "b"); ("pl_masse", CFloat 1);
                          ("pl_orbper", CFloat 730.5)]])
      (comparar_con_tierra "b")
    = Returns (JDict [("status", JStr "success"); ("count", JInt 1);
                      ("data", JList [dato])])
    /\ campo "años_terrestres" dato = Some (JFloat 2)
    /\ campo "pl_name" dato = Some (JStr "b").
Proof.
  destruct (comparison_keeps_the_row
              (fun _ => Table [[("pl_name", CStr "b"); ("pl_masse", CFloat 1);
                                ("pl_orbper", CFloat 730.5)]])
              "b" _ [] (CFloat 730.5) (CFloat 1)
              eq_refl eq_refl eq_refl ltac:(discriminate) eq_refl
              ltac:(discriminate))
    as (dato & Hrun & Ha & Hk).
  exists dato. split; [exact Hrun|]. split; [exact Ha|].
  apply (Hk "pl_name"); reflexivity.
Defined.

(* ================================================================== *)
(** * Rows that lack a column *)
(* ================================================================== *)

(** X8. A first row that has columns but lacks one the derivation reads
    makes the tool return the [unknown] error envelope whose message is
    "Error inesperado: " followed by the quoted name of the column:
    [pl_orbper] or [pl_masse] for [comparar_con_tierra], [pl_masse] or
    [pl_rade] for [calcular_velocidad_escape].  A frame without any column
    is empty, and gives the envelope of the exoplanet that was not found. *)
Theorem missing_column_reported
    (tap : string -> response) (nombre : string) (fila : row)
    (resto : dataframe) :
  en_blanco nombre = false ->
  (tap (query_comparar_con_tierra (replace "'" "''" nombre))
   = Table (fila :: resto) ->
   (fila = [] ->
    run tap (comparar_con_tierra nombre)
    = Returns (JDict [("status", JStr "empty");
                      ("message",
                       JStr ("No se encontró el exoplaneta '" ++ nombre ++ "'"));
                      ("data", JList [])]))
   /\ (fila <> [] -> assoc "pl_orbper" fila = None ->
       run tap (comparar_con_tierra nombre)
       = Returns (error_inesperado "'pl_orbper'"))
   /\ (forall periodo,
         assoc "pl_orbper" fila = Some periodo -> (forall s, periodo <> CStr s) ->
         assoc "pl_masse" fila = None ->
         run tap (comparar_con_tierra nombre)
         = Returns (error_inesperado "'pl_masse'")))
  /\ (tap (query_calcular_velocidad_escape (replace "'" "''" nombre))
      = Table (fila :: resto) ->
      (fila = [] ->
       run tap (calcular_velocidad_escape nombre)
       = Returns (JDict [("status", JStr "empty");
                         ("message",
                          JStr ("No se encontró el exoplaneta '" ++ nombre ++ "'"));
                         ("data", JList [])]))
      /\ (fila <> [] -> assoc "pl_masse" fila = None ->
          run tap (calcular_velocidad_escape nombre)
          = Returns (error_inesperado "'pl_masse'"))
      /\ (forall masa,
            assoc "pl_masse" fila = Some masa -> isna masa = false ->
            assoc "pl_rade" fila = None ->
            run tap (calcular_velocidad_escape nombre)
            = Returns (error_inesperado "'pl_rade'"))).
Proof.
  intros Hb. split; intros Htap.
  - unfold comparar_con_tierra. rewrite Hb. cbn [run]. rewrite Htap.
    split; [now intros ->|]. split.
    + intros Hne Hp. rewrite (empty_con_columnas _ _ Hne). cbn [iloc0 hd].
      unfold comparacion, getitem. now rewrite Hp.
    + intros periodo Hp Hpn Hm.
      rewrite (empty_con_valor _ _ _ _ Hp). cbn [iloc0 hd].
      unfold comparacion, getitem. rewrite Hp. cbn [bind].
      destruct periodo as [| x | s]; [| |now elim (Hpn s)].
      * cbn [is_not_none andb bind].
        rewrite assoc_setitem_other by reflexivity. now rewrite Hm.
      * cbn [is_not_none isna andb cell_truediv]. rewrite truediv_periodo.
        destruct (is_nan x); cbn [negb bind];
          rewrite assoc_setitem_other by reflexivity; now rewrite Hm.
  - unfold calcular_velocidad_escape. rewrite Hb. cbn [run]. rewrite Htap.
    split; [now intros ->|]. split.
    + intros Hne Hm. rewrite (empty_con_columnas _ _ Hne). cbn [iloc0 hd].
      unfold escape, getitem. now rewrite Hm.
    + intros masa Hm Hna Hr.
      rewrite (empty_con_valor _ _ _ _ Hm). cbn [iloc0 hd].
      unfold escape, getitem. rewrite Hm. cbn [bind]. rewrite Hna.
      now rewrite Hr.
Qed.

(** The theorem for a row that has a name only. *)
Lemma missing_column_reported_witness :
  run (fun _ => Table [[("pl_name", CStr "b")]]) (comparar_con_tierra "b")
  = Returns (error_inesperado "'pl_orbper'")
  /\ run (fun _ => Table [[("pl_name", CStr "b")]])
       (calcular_velocidad_escape "b")
     = Returns (error_inesperado "'pl_masse'").
Proof.
  destruct (missing_column_reported (fun _ => Table [[("pl_name", CStr "b")]])
              "b" [("pl_name", CStr "b")] [] eq_refl) as (Hc & Hv).
  split.
  - apply (proj1 (proj2 (Hc eq_refl))); [discriminate | reflexivity].
  - apply (proj1 (proj2 (Hv eq_refl))); [discriminate | reflexivity].
Defined.

(* ================================================================== *)
(** * Escape velocity: sizes for which the formula has no value *)
(* ================================================================== *)

Section Degenerate.

Import FloatOrder.
Local Open Scope float_scope.

(** The root of a negative number is a NaN, and [math.sqrt] raises. *)
Lemma raiz_de_negativo (q : float) :
  (q <? 0) = true -> is_nan (PrimFloat.sqrt q) = true /\ is_nan q = false.
Proof.
  intros H. split; [|now apply ltb_not_nan in H].
  apply is_nan_spec. rewrite sqrt_spec.
  rewrite ltb_spec in H. unfold SFltb in H.
  change (Prim2SF 0) with (S754_zero false) in H.
  destruct (Prim2SF q) as [s | s | | s mq eq]; try discriminate;
    destruct s; try discriminate; reflexivity.
Qed.

Lemma math_sqrt_negativo (q : float) :
  (q <? 0) = true -> math_sqrt q = Raises (ValueError "math domain error").
Proof.
  intros H. destruct (raiz_de_negativo q H) as (Hs & Hq).
  unfold math_sqrt. now rewrite Hs, Hq.
Qed.

Lemma velocidad_sin_valor (masa_kg radio_m : float) :
  (radio_m =? 0) = true \/ ((2 * G * masa_kg) / radio_m <? 0) = true ->
  exists e, velocidad_escape_kms masa_kg radio_m = Raises e.
Proof.
  intros H. unfold velocidad_escape_kms, truediv.
  destruct (radio_m =? 0) eqn:E; [now eexists|].
  destruct H as [H | H]; [discriminate|].
  cbn [bind]. rewrite (math_sqrt_negativo _ H). now eexists.
Qed.

End Degenerate.

(** X9. With numbers for the mass and the radius, a radius whose length in
    metres is zero, or a mass and a radius of opposite signs, give no
    velocity: the division or the square root raises, and
    [calcular_velocidad_escape] returns the [unknown] error envelope, not an
    infinite or NaN velocity. *)
Theorem degenerate_sizes_reported
    (tap : string -> response) (nombre : string) (fila : row)
    (resto : dataframe) (m r : float) :
  en_blanco nombre = false ->
  tap (query_calcular_velocidad_escape (replace "'" "''" nombre))
  = Table (fila :: resto) ->
  assoc "pl_masse" fila = Some (CFloat m) -> is_nan m = false ->
  assoc "pl_rade" fila = Some (CFloat r) -> is_nan r = false ->
  (r * RADIO_TIERRA_M =? 0)%float = true
  \/ ((2 * G * (m * MASA_TIERRA_KG)) / (r * RADIO_TIERRA_M) <? 0)%float = true ->
  exists msg,
    run tap (calcular_velocidad_escape nombre) = Returns (error_inesperado msg).
Proof.
  intros Hb Htap Hm Hnm Hr Hnr H.
  destruct (velocidad_sin_valor _ _ H) as (e & He).
  exists (str_exc e).
  unfold calcular_velocidad_escape. rewrite Hb. cbn [run].
  rewrite Htap, (empty_con_valor _ _ _ _ Hm). cbn [iloc0 hd].
  rewrite (escape_con_datos nombre fila _ _ Hm Hr Hnm Hnr).
  unfold resultado_escape, getitem. rewrite Hm, Hr. cbn [bind cell_mul].
  now rewrite He.
Qed.

(** The theorem for a radius of zero, and for a negative mass. *)
Lemma degenerate_sizes_reported_witness :
  (exists msg,
      run (fun _ => Table [[("pl_name", CStr "b"); ("pl_masse", CFloat 1);
                            ("pl_rade", CFloat 0)]])
        (calcular_velocidad_escape "b") = Returns (error_inesperado msg))
  /\ (exists msg,
         run (fun _ => Table [[("pl_name", CStr "b"); ("pl_masse", CFloat (-1));
                               ("pl_rade", CFloat 1)]])
           (calcular_velocidad_escape "b") = Returns (error_inesperado msg)).
Proof.
  split.
  - apply (degenerate_sizes_reported
             (fun _ => Table [[("pl_name", CStr "b"); ("pl_masse", CFloat 1);
                               ("pl_rade", CFloat 0)]])
             "b" [("pl_name", CStr "b"); ("pl_masse", CFloat 1);
                  ("pl_rade", CFloat 0)] [] 1 0
             eq_refl eq_refl eq_refl eq_refl eq_refl eq_refl).
    left. reflexivity.
  - apply (degenerate_sizes_reported
             (fun _ => Table [[("pl_name", CStr "b"); ("pl_masse", CFloat (-1));
                               ("pl_rade", CFloat 1)]])
             "b" [("pl_name", CStr "b"); ("pl_masse", CFloat (-1));
                  ("pl_rade", CFloat 1)] [] (-1) 1
             eq_refl eq_refl eq_refl eq_refl eq_refl eq_refl).
    right. reflexivity.
Defined.

(** X10. The guard on missing data does not keep every NaN out: for a mass
    and a radius that are numbers but so large that both conversions to
    kilograms and to metres overflow to infinity, the quotient is a NaN,
    nothing is raised, and the tool returns a success envelope whose
    velocity is NaN, classed in the last tier. *)
Theorem overflow_gives_nan_velocity
    (tap : string -> response) (nombre : string) (fila : row)
    (resto : dataframe) (m r : float) (pl_name : cell) :
  en_blanco nombre = false ->
  tap (query_calcular_velocidad_escape (replace "'" "''" nombre))
  = Table (fila :: resto) ->
  assoc "pl_name" fila = Some pl_name ->
  assoc "pl_masse" fila = Some (CFloat m) -> is_nan m = false ->
  assoc "pl_rade" fila = Some (CFloat r) -> is_nan r = false ->
  (m * MASA_TIERRA_KG)%float = infinity ->
  (r * RADIO_TIERRA_M)%float = infinity ->
  exists dato,
    run tap (calcular_velocidad_escape nombre)
    = Returns (JDict [("status", JStr "success"); ("count", JInt 1);
                      ("data", JList [dato])])
    /\ campo "velocidad_escape_kms" dato = Some (JFloat nan)
    /\ campo "ratio_vs_tierra" dato = Some (JFloat nan)
    /\ campo "dificultad_escape" dato
       = Some (JStr "Extremadamente difícil de escapar").
Proof.
  intros Hb Htap Hn Hm Hnm Hr Hnr Hmi Hri.
  assert (Hv : velocidad_escape_kms (m * MASA_TIERRA_KG) (r * RADIO_TIERRA_M)
               = Returns nan) by (rewrite Hmi, Hri; reflexivity).
  eexists. split; [|split; [|split]].
  - unfold calcular_velocidad_escape. rewrite Hb. cbn [run].
    rewrite Htap, (empty_con_valor _ _ _ _ Hm). cbn [iloc0 hd].
    rewrite (escape_con_datos nombre fila _ _ Hm Hr Hnm Hnr).
    rewrite (resultado_escape_numeros fila _ _ Hm Hr m r nan pl_name
               eq_refl eq_refl Hn Hv).
    reflexivity.
  - reflexivity.
  - reflexivity.
  - reflexivity.
Qed.

(** The theorem for a mass of 1e300 and a radius of 1e305. *)
Lemma overflow_gives_nan_velocity_witness :
  exists dato,
    run (fun _ => Table [[("pl_name", CStr "b"); ("pl_masse", CFloat 1e300);
                          ("pl_rade", CFloat 1e305)]])
      (calcular_velocidad_escape "b")
    = Returns (JDict [("status", JStr "success"); ("count", JInt 1);
                      ("data", JList [dato])])
    /\ campo "velocidad_escape_kms" dato = Some (JFloat nan).
Proof.
  destruct (overflow_gives_nan_velocity
              (fun _ => Table [[("pl_name", CStr "b"); ("pl_masse", CFloat 1e300);
                                ("pl_rade", CFloat 1e305)]])
              "b" _ [] 1e300%float 1e305%float (CStr "b")
              eq_refl eq_refl eq_refl eq_refl eq_refl eq_refl eq_refl
              eq_refl eq_refl)
    as (dato & Hrun & Hv & _).
  now exists dato.
Defined.

(* ================================================================== *)
(** * The tiers and the rocket note *)
(* ================================================================== *)

(** X11. The two classifications of an escape velocity agree: in the two
    lowest tiers the note says that a Saturn V could escape, in the two
    highest that stronger rockets are needed; only the middle tier, from 11
    to 30 km/s, can carry either note. *)
Theorem difficulty_and_rocket_note_agree (v : float) :
  (snd (clasificar_escape v) = "Muy fácil de escapar"
   \/ snd (clasificar_escape v) = "Moderadamente difícil" ->
   nota_cohete v = "Un cohete tipo Saturn V podría escapar")
  /\ (snd (clasificar_escape v) = "Muy difícil de escapar"
      \/ snd (clasificar_escape v) = "Extremadamente difícil de escapar" ->
      nota_cohete v = "Requeriría cohetes más potentes que los actuales").
Proof.
  unfold clasificar_escape, nota_cohete.
  destruct (v <? 5)%float eqn:E5.
  { rewrite (FloatOrder.ltb_trans v 5 20 E5 eq_refl).
    split; [reflexivity | intros [H | H]; discriminate]. }
  destruct (v <? 11)%float eqn:E11.
  { rewrite (FloatOrder.ltb_trans v 11 20 E11 eq_refl).
    split; [reflexivity | intros [H | H]; discriminate]. }
  destruct (v <? 30)%float eqn:E30.
  { split; intros [H | H]; discriminate. }
  assert (E20 : (v <? 20)%float = false).
  { destruct (v <? 20)%float eqn:E; [|reflexivity].
    pose proof (FloatOrder.ltb_trans v 20 30 E eq_refl). congruence. }
  rewrite E20.
  destruct (v <? 60)%float;
    (split; [intros [H | H]; discriminate | reflexivity]).
Qed.

(** The theorem at the escape velocity of Mars. *)
Lemma difficulty_and_rocket_note_agree_witness :
  nota_cohete 5 = "Un cohete tipo Saturn V podría escapar".
Proof.
  apply (proj1 (difficulty_and_rocket_note_agree 5)). right. reflexivity.
Defined.

(* ================================================================== *)
(** * The WHERE clause *)
(* ================================================================== *)

Section WhereClause.

Lemma filtro_nil {A : Type} (x : option A) (pasa : A -> bool)
    (c : A -> string) (l : list string) :
  filtro x pasa c l = [] <-> l = [] /\ efectivo pasa x = false.
Proof.
  unfold filtro, efectivo. destruct x as [a|]; [destruct (pasa a)|].
  - split; [intros H; apply app_eq_nil in H; now destruct H | now intros (_ & H)].
  - tauto.
  - tauto.
Qed.

Lemma length_filtro {A : Type} (x : option A) (pasa : A -> bool)
    (c : A -> string) (l : list string) :
  List.length (filtro x pasa c l)
  = (List.length l + Nat.b2n (efectivo pasa x))%nat.
Proof.
  unfold filtro, efectivo. destruct x as [a|]; [destruct (pasa a)|]; cbn.
  - rewrite length_app. reflexivity.
  - lia.
  - lia.
Qed.

Lemma where_clause_nil (condiciones : list string) :
  where_clause condiciones = "" <-> condiciones = [].
Proof.
  destruct condiciones as [|c l]; cbn; split; try reflexivity; discriminate.
Qed.

Lemma efectivo_not_none {A : Type} (x : option A) :
  efectivo not_none x = false <-> x = None.
Proof. unfold efectivo, not_none. destruct x; split; congruence. Qed.

End WhereClause.

(** X12. The advanced search has no WHERE clause exactly when no filter is
    effective (every numeric filter null, method and locale null or empty),
    and otherwise one predicate for each effective filter; the same holds
    for the two years of the time line, a year being effective when it is
    neither null nor zero. *)
Theorem where_clause_counts_effective_filters
    (rf : float -> string)
    (mmin mmax pmin pmax dmax : option float) (amin : option Z)
    (metodo locale : option string) (ainicio afin : option Z) :
  let cs := condiciones_busqueda rf mmin mmax pmin pmax dmax amin metodo locale in
  let ct := condiciones_timeline ainicio afin in
  (where_clause cs = ""
   <-> mmin = None /\ mmax = None /\ pmin = None /\ pmax = None
       /\ dmax = None /\ amin = None
       /\ efectivo truthy metodo = false /\ efectivo truthy locale = false)
  /\ List.length cs
     = (Nat.b2n (efectivo not_none mmin) + Nat.b2n (efectivo not_none mmax)
        + Nat.b2n (efectivo not_none pmin) + Nat.b2n (efectivo not_none pmax)
        + Nat.b2n (efectivo not_none dmax) + Nat.b2n (efectivo not_none amin)
        + Nat.b2n (efectivo truthy metodo) + Nat.b2n (efectivo truthy locale))%nat
  /\ (where_clause ct = ""
      <-> efectivo truthy_int ainicio = false
          /\ efectivo truthy_int afin = false)
  /\ List.length ct
     = (Nat.b2n (efectivo truthy_int ainicio)
        + Nat.b2n (efectivo truthy_int afin))%nat.
Proof.
  intros cs ct. unfold cs, ct, condiciones_busqueda, condiciones_timeline.
  split; [|split; [|split]].
  - rewrite where_clause_nil, !filtro_nil, !efectivo_not_none. tauto.
  - rewrite !length_filtro. reflexivity.
  - rewrite where_clause_nil, !filtro_nil. tauto.
  - rewrite !length_filtro. reflexivity.
Qed.

(** The theorem for a search with an empty method and no other filter. *)
Lemma where_clause_counts_effective_filters_witness :
  where_clause
    (condiciones_busqueda (fun _ => "") None None None None None None
       (Some "") None) = "".
Proof.
  apply (proj1 (where_clause_counts_effective_filters (fun _ => "") None None
                  None None None None (Some "") None None None)).
  repeat split.
Defined.

(** X13. The WHERE clause of the time line: both years give the two
    predicates joined by AND, in the order start then end, whatever the
    order of the years themselves; one year gives its predicate alone. *)
Theorem timeline_where_clause (a b : Z) :
  a <> 0%Z -> b <> 0%Z ->
  where_clause (condiciones_timeline (Some a) (Some b))
  = "WHERE disc_year >= " ++ str_int a ++ " AND disc_year <= " ++ str_int b
  /\ where_clause (condiciones_timeline (Some a) None)
     = "WHERE disc_year >= " ++ str_int a
  /\ where_clause (condiciones_timeline None (Some b))
     = "WHERE disc_year <= " ++ str_int b.
Proof.
  intros Ha Hb. apply truthy_int_iff in Ha, Hb.
  unfold condiciones_timeline, filtro. rewrite Ha, Hb. cbn [truthy_int].
  repeat split.
Qed.

(** The theorem for the years 2020 and 2010, out of order. *)
Lemma timeline_where_clause_witness :
  where_clause (condiciones_timeline (Some 2020%Z) (Some 2010%Z))
  = "WHERE disc_year >= 2020 AND disc_year <= 2010".
Proof.
  apply (timeline_where_clause 2020 2010); discriminate.
Defined.

(* ================================================================== *)
(** * Text where a number is expected *)
(* ================================================================== *)

(** X14. A text value in a column that the derivation computes with is not
    taken for a missing value: [pd.isna] lets it through, the arithmetic or
    the comparison raises a [TypeError], and the tool returns the [unknown]
    error envelope.  This holds for the period and the mass of
    [comparar_con_tierra] and for the mass of [calcular_velocidad_escape]. *)
Theorem text_in_numeric_column_reported
    (tap : string -> response) (nombre : string) (fila : row)
    (resto : dataframe) (texto : string) :
  en_blanco nombre = false ->
  (tap (query_comparar_con_tierra (replace "'" "''" nombre))
   = Table (fila :: resto) ->
   (assoc "pl_orbper" fila = Some (CStr texto) ->
    exists msg,
      run tap (comparar_con_tierra nombre) = Returns (error_inesperado msg))
   /\ (forall periodo,
         assoc "pl_orbper" fila = Some periodo -> (forall s, periodo <> CStr s) ->
         assoc "pl_masse" fila = Some (CStr texto) ->
         exists msg,
           run tap (comparar_con_tierra nombre)
           = Returns (error_inesperado msg)))
  /\ (tap (query_calcular_velocidad_escape (replace "'" "''" nombre))
      = Table (fila :: resto) ->
      forall radio,
        assoc "pl_masse" fila = Some (CStr texto) ->
        assoc "pl_rade" fila = Some radio -> isna radio = false ->
        exists msg,
          run tap (calcular_velocidad_escape nombre)
          = Returns (error_inesperado msg)).
Proof.
  intros Hb. split; intros Htap.
  - unfold comparar_con_tierra. rewrite Hb. cbn [run]. rewrite Htap.
    split.
    + intros Hp. rewrite (empty_con_valor _ _ _ _ Hp). cbn [iloc0 hd].
      unfold comparacion, getitem. rewrite Hp. eexists. reflexivity.
    + intros periodo Hp Hpn Hm.
      rewrite (empty_con_valor _ _ _ _ Hp). cbn [iloc0 hd].
      unfold comparacion, getitem. rewrite Hp. cbn [bind].
      destruct periodo as [| x | s]; [| |now elim (Hpn s)].
      * cbn [is_not_none andb bind].
        rewrite assoc_setitem_other by reflexivity. rewrite Hm.
        eexists. reflexivity.
      * cbn [is_not_none isna andb cell_truediv]. rewrite truediv_periodo.
        destruct (is_nan x); cbn [negb bind];
          rewrite assoc_setitem_other by reflexivity; rewrite Hm;
          eexists; reflexivity.
  - intros radio Hm Hr Hnr.
    unfold calcular_velocidad_escape. rewrite Hb. cbn [run].
    rewrite Htap, (empty_con_valor _ _ _ _ Hm). cbn [iloc0 hd].
    rewrite (escape_con_datos nombre fila _ _ Hm Hr eq_refl Hnr).
    unfold resultado_escape, getitem. rewrite Hm.
    eexists. reflexivity.
Qed.

(** The theorem for a row whose mass is the text [n/a]. *)
Lemma text_in_numeric_column_reported_witness :
  exists msg,
    run (fun _ => Table [[("pl_name", CStr "b"); ("pl_masse", CStr "n/a");
                          ("pl_rade", CFloat 1)]])
      (calcular_velocidad_escape "b") = Returns (error_inesperado msg).
Proof.
  apply (proj2 (text_in_numeric_column_reported
                  (fun _ => Table [[("pl_name", CStr "b");
                                    ("pl_masse", CStr "n/a");
                                    ("pl_rade", CFloat 1)]])
                  "b" [("pl_name", CStr "b"); ("pl_masse", CStr "n/a");
                       ("pl_rade", CFloat 1)] [] "n/a" eq_refl)
           eq_refl (CFloat 1) eq_refl eq_refl eq_refl).
Defined.

(* ================================================================== *)
(** * The row limit *)
(* ================================================================== *)

(** The text before the row limit at the end of [P]. *)
Ltac antes_del_limite P :=
  let n := eval vm_compute in
        (String.length P - String.length "WHERE ROWNUM <= ")%nat in
  eval vm_compute in (substring 0 n P).

Lemma limite_split (P pre x Q : string) :
  P = pre ++ "WHERE ROWNUM <= " ->
  [P ++ x ++ Q] = [pre ++ "WHERE ROWNUM <= " ++ x ++ Q].
Proof. intros ->. now rewrite !append_assoc. Qed.

Ltac limite :=
  cbn [tras_validar]; unfold ejecutar_query_segura; cbn [queries];
  lazymatch goal with
  | |- exists pre, [(?P ++ ?x ++ ?Q)%string] = _ =>
      let pre := antes_del_limite P in
      exists pre; apply (limite_split P pre x Q); reflexivity
  end.

Lemma limite_split_interior (A e P Q pre x : string) :
  P = pre ++ "WHERE ROWNUM <= " ->
  [A ++ e ++ P ++ x ++ Q] = [(A ++ e ++ pre) ++ "WHERE ROWNUM <= " ++ x ++ Q].
Proof. intros ->. now rewrite !append_assoc. Qed.

Ltac limite_interior :=
  lazymatch goal with
  | |- exists pre, [(?A ++ ?e ++ ?P ++ ?x ++ ?Q)%string] = _ =>
      let pre := antes_del_limite P in
      exists (A ++ e ++ pre)%string;
      apply (limite_split_interior A e P Q pre x); reflexivity
  end.

Section LimitRead.

Lemma list_ascii_app (a b : string) :
  list_ascii_of_string (a ++ b)
  = (list_ascii_of_string a ++ list_ascii_of_string b)%list.
Proof. induction a as [|c a IH]; cbn; [reflexivity | now rewrite IH]. Qed.

Lemma digitos_forall (s : string) :
  solo_digitos s = true ->
  Forall (fun c => es_digito c = true) (list_ascii_of_string s).
Proof.
  induction s as [|c s IH]; cbn; [constructor|].
  intros H. apply andb_prop in H as [Hc Hs]. constructor; auto.
Qed.

(** Two runs of digits that end at the same place of a text, each after a
    space, are the same run. *)
Lemma digitos_hasta_espacio (l1 l2 r1 r2 : list ascii) :
  Forall (fun c => es_digito c = true) l1 ->
  Forall (fun c => es_digito c = true) l2 ->
  (l1 ++ " "%char :: r1 = l2 ++ " "%char :: r2)%list -> l1 = l2.
Proof.
  intros H1. revert l2. induction H1 as [|c l1 Hc H1 IH]; intros l2 H2 E.
  - destruct H2 as [|d l2 Hd H2]; [reflexivity|].
    cbn in E. injection E as <- _. discriminate.
  - destruct H2 as [|d l2 Hd H2]; cbn in E.
    + injection E as -> _. discriminate.
    + injection E as -> E. f_equal. now apply IH.
Qed.

Lemma limite_unico (pre pre' d d' cola : string) :
  solo_digitos d = true -> solo_digitos d' = true ->
  pre ++ "WHERE ROWNUM <= " ++ d ++ cola
  = pre' ++ "WHERE ROWNUM <= " ++ d' ++ cola ->
  d = d'.
Proof.
  intros Hd Hd' E.
  apply (f_equal (fun s => List.rev (list_ascii_of_string s))) in E.
  rewrite !list_ascii_app, !rev_app_distr, <- !app_assoc in E.
  apply app_inv_head in E.
  cbn [list_ascii_of_string List.rev app] in E.
  apply digitos_hasta_espacio in E.
  - apply (f_equal (@List.rev ascii)) in E. rewrite !rev_involutive in E.
    apply (f_equal string_of_list_ascii) in E.
    now rewrite !string_of_list_ascii_of_string in E.
  - apply Forall_rev. now apply digitos_forall.
  - apply Forall_rev. now apply digitos_forall.
Qed.

End LimitRead.

(** X15. In each of the five tools that take a count or a limit, an accepted
    number is the row limit of the query that is submitted: the query ends
    in [WHERE ROWNUM <= n], with [n] written in digits only and followed by
    the line break that closes the text, and no other number is the limit
    of that query. *)
Theorem accepted_count_limits_rows (rf : float -> string) (pd : float -> float)
    (n : Z) :
  ((1 <= n <= 500)%Z -> limita_a (listar_exoplanetas_mas_masivos pd n) n)
  /\ ((1 <= n <= 100)%Z ->
      limita_a (buscar_planetas_habitables pd n) n
      /\ limita_a (exoplanetas_mas_cercanos pd n) n)
  /\ ((1 <= n <= 200)%Z ->
      (forall metodo, limita_a (buscar_por_metodo_descubrimiento pd metodo n) n)
      /\ (forall mmin mmax pmin pmax dmax amin metodo locale,
             limita_a (busqueda_avanzada rf pd mmin mmax pmin pmax dmax amin
                         metodo locale n) n))
  /\ ((0 <= n)%Z -> solo_digitos (str_int n) = true)
  /\ (forall a n',
         (0 <= n)%Z -> (0 <= n')%Z -> limita_a a n -> limita_a a n' -> n = n').
Proof.
  unfold limita_a. split; [|split; [|split; [|split]]].
  - intros H. unfold listar_exoplanetas_mas_masivos.
    rewrite validar_en_rango by exact H.
    unfold query_listar_exoplanetas_mas_masivos. limite.
  - intros H. split.
    + unfold buscar_planetas_habitables. rewrite validar_en_rango by exact H.
      unfold query_buscar_planetas_habitables. limite.
    + unfold exoplanetas_mas_cercanos. rewrite validar_en_rango by exact H.
      unfold query_exoplanetas_mas_cercanos. limite.
  - intros H. split.
    + intros metodo. unfold buscar_por_metodo_descubrimiento.
      rewrite validar_en_rango by exact H.
      unfold query_buscar_por_metodo_descubrimiento.
      cbn [tras_validar]. unfold ejecutar_query_segura. cbn [queries].
      limite_interior.
    + intros. unfold busqueda_avanzada. rewrite validar_en_rango by exact H.
      unfold query_busqueda_avanzada.
      cbn [tras_validar]. unfold ejecutar_query_segura. cbn [queries].
      limite_interior.
  - apply str_int_digitos.
  - intros a n' Hn Hn' (pre & E) (pre' & E'). rewrite E in E'.
    injection E' as E'.
    apply limite_unico in E'; try now apply str_int_digitos.
    pose proof (str_int_vuelve n) as V. rewrite E', str_int_vuelve in V.
    now injection V.
Qed.

(** The theorem for ten planets: ten is the limit of the query, one is
    not. *)
Lemma accepted_count_limits_rows_witness :
  limita_a (listar_exoplanetas_mas_masivos (fun x => x) 10) 10
  /\ solo_digitos (str_int 10) = true
  /\ ~ limita_a (listar_exoplanetas_mas_masivos (fun x => x) 10) 1.
Proof.
  destruct (accepted_count_limits_rows (fun _ => "") (fun x => x) 10)
    as (H & _ & _ & Hd & Hu).
  split; [apply H; lia|]. split; [apply Hd; lia|].
  intros H1.
  assert (E : 10%Z = 1%Z)
    by (apply (Hu (listar_exoplanetas_mas_masivos (fun x => x) 10));
        [lia | lia | apply H; lia | exact H1]).
  discriminate E.
Defined.

(* ================================================================== *)
(** * Checks of the embedding on values computed by Python *)
(* ================================================================== *)

Example replace_examples :
  replace "'" "''" "O'Neil ''x" = "O''Neil ''''x"
  /\ replace "''" "'" "a'''b''''" = "a''b''"
  /\ replace "ab" "X" "aabab" = "aXX"
  /\ replace "" "-" "ab" = "-a-b-".
Proof. repeat split. Qed.

Example str_int_examples :
  str_int 0 = "0" /\ str_int (-5) = "-5" /\ str_int 500 = "500".
Proof. repeat split. Qed.

Example round2_examples :
  round2 11.185726492371471 = 11.19%float
  /\ round2 0.99872557967602427 = 1%float
  /\ round2 2.675 = 2.67%float
  /\ round2 0.125 = 0.12%float
  /\ round2 (730.5 / 365.25) = 2%float
  /\ round2 (-0.001) = (-0)%float
  /\ round2 70368744177663.99 = 70368744177663.99%float
  /\ round2 infinity = infinity.
Proof. repeat split. Qed.

Example en_blanco_examples :
  en_blanco "" = true /\ en_blanco "  	 " = true /\ en_blanco " b " = false.
Proof. repeat split. Qed.
